(** * Daf Yomi Yerushalmi calculator: embedding and verification

    A shallow embedding of [src/hebrewcalendar/YerushalmiYomiCalculator.ts]
    (class [YerushalmiYomiCalculator] and the helper [rangeDates]).

    Modelling conventions.
    - A [Temporal.PlainDate] is its proleptic-Gregorian day number (day 1 is
      0001-01-01), so [compare], [add {days}] and [since .. total {days}] are
      integer comparison, addition and subtraction.  [add] throws a
      RangeError when the sum leaves the range of [Temporal.PlainDate]
      (-271821-04-19 to +275760-09-13).
    - JavaScript numbers are integers throughout the calculator (all values
      stay far below 2^53), modelled as [Z].
    - The class [JewishCalendar] is not among the sources; the calculator is
      written against the interface [HebrewCalendar] below, and the concrete
      instance [KosherJewishCalendar] supplies the fixed arithmetic Hebrew
      calendar for closed examples.
    - The [while] loop takes fuel; [cycleSearch_enough_fuel] shows the fuel
      that [getDafYomiYerushalmi] supplies always suffices: the loop ends
      with its two dates or with the RangeError of [add]. *)

From Stdlib Require Import ZArith List Bool Lia.
Import ListNotations.
Local Open Scope Z_scope.

(** ** Temporal.PlainDate *)

Definition PlainDate : Type := Z.

Module Temporal.

Definition isLeapYear (year : Z) : bool :=
  ((year mod 4 =? 0) && negb (year mod 100 =? 0)) || (year mod 400 =? 0).

Definition daysInMonth (year month : Z) : Z :=
  if month =? 2 then (if isLeapYear year then 29 else 28)
  else if (month =? 4) || (month =? 6) || (month =? 9) || (month =? 11) then 30
  else 31.

Fixpoint daysBeforeMonth (n : nat) (year : Z) : Z :=
  match n with
  | O => 0
  | S k => daysBeforeMonth k year + daysInMonth year (Z.of_nat (S k))
  end.

(** [Temporal.PlainDate.from({ year, month, day })], for a year, month and
    day that name a day of the calendar. *)
Definition from (year month day : Z) : PlainDate :=
  day + daysBeforeMonth (Z.to_nat (month - 1)) year
  + 365 * (year - 1) + (year - 1) / 4 - (year - 1) / 100 + (year - 1) / 400.

(** [Temporal.PlainDate.compare(a, b)]: -1, 0 or 1. *)
Definition compare (a b : PlainDate) : Z :=
  match a ?= b with
  | Lt => -1
  | Eq => 0
  | Gt => 1
  end.

(** The first and the last day a [Temporal.PlainDate] can hold. *)
Definition MIN_DAY : PlainDate := from (-271821) 4 19.
Definition MAX_DAY : PlainDate := from 275760 9 13.

(** [date.add({ days })]; [None] is the RangeError thrown when the result is
    outside the range of [Temporal.PlainDate]. *)
Definition add (date : PlainDate) (days : Z) : option PlainDate :=
  let result := date + days in
  if (MIN_DAY <=? result) && (result <=? MAX_DAY) then Some result else None.

(** [later.since(earlier).total({ unit: 'days' })]. *)
Definition sinceDays (later earlier : PlainDate) : Z := later - earlier.

End Temporal.

(** ** The Hebrew-calendar collaborator

    What the calculator uses of [JewishCalendar]: both constructors, the
    accessors [getDate], [getJewishYear] and [getYomTovIndex], the mutator
    [setJewishYear] (as a functional update) and the two holiday indices. *)

Class HebrewCalendar : Type := {
  JewishCalendar : Type;
  (** [new JewishCalendar(date)] *)
  fromDate : PlainDate -> JewishCalendar;
  (** [new JewishCalendar(jewishYear, jewishMonth, jewishDay)] *)
  fromJewish : Z -> Z -> Z -> JewishCalendar;
  getDate : JewishCalendar -> PlainDate;
  getJewishYear : JewishCalendar -> Z;
  setJewishYear : JewishCalendar -> Z -> JewishCalendar;
  getYomTovIndex : JewishCalendar -> Z;
  YOM_KIPPUR : Z;
  TISHA_BEAV : Z
}.

(** Modelled from the spec: the page reference, a pair of a volume index
    and a page number, built by [new Daf(masechtaNumber, daf)] ([Daf.ts] is
    not among the sources). *)
Record Daf : Type := mkDaf { masechtaNumber : Z; daf : Z }.

(** The ways a call of [getDafYomiYerushalmi] can end.  [ReturnUndefined] is
    [return dafYomi!] with [dafYomi] never assigned, [ThrowRangeError] the
    RangeError of [nextCycle.add] passing through; [OutOfFuel] belongs to the
    model only. *)
Inductive Outcome : Type :=
| ReturnNull
| ThrowIllegalArgument
| ThrowRangeError
| ReturnDaf (d : Daf)
| ReturnUndefined
| OutOfFuel.

(** The ways the [while] loop can end: with its two dates, or with the
    RangeError of [add]; [SearchOutOfFuel] belongs to the model only. *)
Inductive SearchResult : Type :=
| Found (prevCycle nextCycle : PlainDate)
| SearchRangeError
| SearchOutOfFuel.

(** The two calendar objects of [getNumOfSpecialDays], with the Hebrew month
    and day it constructs them from (10 Tishrei and 9 Av). *)
Inductive HolyDay : Type := YomKippurDay | TishaBeavDay.

Definition holyDayMonth (t : HolyDay) : Z :=
  match t with YomKippurDay => 7 | TishaBeavDay => 5 end.

Definition holyDayDay (t : HolyDay) : Z :=
  match t with YomKippurDay => 10 | TishaBeavDay => 9 end.

(** ** YerushalmiYomiCalculator *)

(** Modelled from the spec: [Calendar.FEBRUARY] of [polyfills/Utils.ts],
    which is not among the sources.  The start date is February 2, 1980 and
    the code adds 1 to the constant, so months count from 0. *)
Definition Calendar_FEBRUARY : Z := 1.

Definition DAF_YOMI_START_DAY : PlainDate :=
  Temporal.from 1980 (Calendar_FEBRUARY + 1) 2.

Definition WHOLE_SHAS_DAFS : Z := 1554.

Definition BLATT_PER_MASECHTA : list Z :=
  [68; 37; 34; 44; 31; 59; 26; 33; 28; 20; 13; 92; 65; 71; 22;
   22; 42; 26; 26; 33; 34; 22; 19; 85; 72; 47; 40; 47; 54; 48; 44; 37; 34; 44; 9; 57; 37; 19; 13].

Definition sumZ (l : list Z) : Z := fold_right Z.add 0 l.

(** [Array.prototype.includes] on numbers. *)
Definition includes (values : list Z) (x : Z) : bool :=
  existsb (Z.eqb x) values.

Definition rangeDates (start middle end_ : PlainDate) (inclusive : bool) : bool :=
  let acceptedValues := [1] ++ (if inclusive then [0] else []) in
  includes acceptedValues (Temporal.compare middle start)
  && includes acceptedValues (Temporal.compare end_ middle).

(** The body of the [for] loop that ends [getDafYomiYerushalmi]: [table] is
    the part of [BLATT_PER_MASECHTA] from index [i] on. *)
Fixpoint findDaf (table : list Z) (masechta total : Z) : option Daf :=
  match table with
  | [] => None
  | blatt :: rest =>
      if total <=? blatt then Some (mkDaf masechta (total + 1))
      else findDaf rest (masechta + 1) (total - blatt)
  end.

(** The pages of the volumes before [masechta]: the sum of the first
    [masechta] entries of the table. *)
Definition pagesBefore (table : list Z) (masechta : Z) : Z :=
  sumZ (firstn (Z.to_nat masechta) table).

Section Calculator.

Context {HC : HebrewCalendar}.

(** The loop [for (i = jewishStartYear; i <= jewishEndYear; i++)] with [n]
    iterations left; the two calendar objects are threaded through. *)
Fixpoint specialDaysLoop (start end_ : PlainDate) (n : nat) (i : Z)
         (yomKippur tishaBeav : JewishCalendar) (specialDays : Z) : Z :=
  match n with
  | O => specialDays
  | S n' =>
      let yomKippur := setJewishYear yomKippur i in
      let tishaBeav := setJewishYear tishaBeav i in
      let specialDays :=
        if rangeDates start (getDate yomKippur) end_ true
        then specialDays + 1 else specialDays in
      let specialDays :=
        if rangeDates start (getDate tishaBeav) end_ true
        then specialDays + 1 else specialDays in
      specialDaysLoop start end_ n' (i + 1) yomKippur tishaBeav specialDays
  end.

Definition getNumOfSpecialDays (start end_ : PlainDate) : Z :=
  let jewishStartYear := getJewishYear (fromDate start) in
  let jewishEndYear := getJewishYear (fromDate end_) in
  let yomKippur := fromJewish jewishStartYear 7 10 in
  let tishaBeav := fromJewish jewishStartYear 5 9 in
  specialDaysLoop start end_
    (Z.to_nat (jewishEndYear - jewishStartYear + 1)) jewishStartYear
    yomKippur tishaBeav 0.

(** One pass through the body of the [while] loop: the new [nextCycle], or
    [None] when one of the two [add] calls throws. *)
Definition advanceCycle (nextCycle : PlainDate) : option PlainDate :=
  let prevCycle := nextCycle in
  match Temporal.add nextCycle WHOLE_SHAS_DAFS with
  | None => None
  | Some nextCycle =>
      Temporal.add nextCycle (getNumOfSpecialDays prevCycle nextCycle)
  end.

(** [while (compare(nextCycle, requested) == -1) { ... }], ending with the
    final [prevCycle] and [nextCycle]. *)
Fixpoint cycleSearch (fuel : nat) (prevCycle nextCycle requested : PlainDate)
  : SearchResult :=
  if Temporal.compare nextCycle requested =? -1 then
    match fuel with
    | O => SearchOutOfFuel
    | S fuel' =>
        match advanceCycle nextCycle with
        | None => SearchRangeError
        | Some nextCycle' => cycleSearch fuel' nextCycle nextCycle' requested
        end
    end
  else Found prevCycle nextCycle.

Definition cycleFuel (requested : PlainDate) : nat :=
  Z.to_nat ((requested - DAF_YOMI_START_DAY) / WHOLE_SHAS_DAFS + 1).

(** Lines 76-80: the day count within the cycle, less the special days. *)
Definition adjustedOffset (prevCycle requested : PlainDate) : Z :=
  let dafNo := Temporal.sinceDays requested prevCycle in
  let specialDays := getNumOfSpecialDays prevCycle requested in
  dafNo - specialDays.

Definition getDafYomiYerushalmi (jewishCalendar : JewishCalendar) : Outcome :=
  let requested := getDate jewishCalendar in
  if (getYomTovIndex jewishCalendar =? YOM_KIPPUR)
     || (getYomTovIndex jewishCalendar =? TISHA_BEAV)
  then ReturnNull
  else if Temporal.compare requested DAF_YOMI_START_DAY =? -1
  then ThrowIllegalArgument
  else
    match cycleSearch (cycleFuel requested)
            DAF_YOMI_START_DAY DAF_YOMI_START_DAY requested with
    | SearchOutOfFuel => OutOfFuel
    | SearchRangeError => ThrowRangeError
    | Found prevCycle _ =>
        let total := adjustedOffset prevCycle requested in
        match findDaf BLATT_PER_MASECHTA 0 total with
        | Some dafYomi => ReturnDaf dafYomi
        | None => ReturnUndefined
        end
    end.

(** The cycle start that the loop settles on for [requested], when it ends
    with one. *)
Definition cycleStartOf (requested : PlainDate) : option PlainDate :=
  match cycleSearch (cycleFuel requested)
          DAF_YOMI_START_DAY DAF_YOMI_START_DAY requested with
  | Found prevCycle _ => Some prevCycle
  | SearchRangeError | SearchOutOfFuel => None
  end.

(** The day number one pass of the loop body moves [nextCycle] to: 1554 days
    on, then as many days on as the counter gives.  [advanceCycle] returns it
    unless [add] throws ([advanceCycle_value]). *)
Definition nextBoundary (nextCycle : PlainDate) : PlainDate :=
  nextCycle + WHOLE_SHAS_DAFS
  + getNumOfSpecialDays nextCycle (nextCycle + WHOLE_SHAS_DAFS).

(** The day number of the k-th value that [nextCycle] takes in the loop. *)
Fixpoint cycleBoundary (k : nat) : PlainDate :=
  match k with
  | O => DAF_YOMI_START_DAY
  | S k' => nextBoundary (cycleBoundary k')
  end.

(** The date the counter tests for a Hebrew year: that of the calendar
    object it builds with month 7, day 10 or with month 5, day 9.  It is the
    counter's date; the day the calendar reports as the holy day is
    [isExcludedDay]. *)
Definition holyDayDate (year : Z) (t : HolyDay) : PlainDate :=
  getDate (fromJewish year (holyDayMonth t) (holyDayDay t)).

(** Following the spec's words: an excluded holy day is a day on which no
    page is assigned, as the calendar determines for that date (the test of
    the first guard of [getDafYomiYerushalmi]). *)
Definition isExcludedDay (date : PlainDate) : bool :=
  (getYomTovIndex (fromDate date) =? YOM_KIPPUR)
  || (getYomTovIndex (fromDate date) =? TISHA_BEAV).

(** The days [first], [first + 1], ... ([n] of them). *)
Fixpoint daysFrom (first : PlainDate) (n : nat) : list PlainDate :=
  match n with
  | O => []
  | S n' => first :: daysFrom (first + 1) n'
  end.

(** Following the spec's words: the number of excluded holy days in the
    closed interval from [start] to [end_]. *)
Definition excludedDaysBetween (start end_ : PlainDate) : Z :=
  Z.of_nat (length (filter isExcludedDay
                      (daysFrom start (Z.to_nat (end_ - start + 1))))).

Definition inClosedRange (start end_ date : PlainDate) : bool :=
  (start <=? date) && (date <=? end_).

(** The Hebrew years [first], [first + 1], ... ([n] of them). *)
Fixpoint yearsFrom (first : Z) (n : nat) : list Z :=
  match n with
  | O => []
  | S n' => first :: yearsFrom (first + 1) n'
  end.

(** How many of the two dates the counter tests for one Hebrew year lie in
    [start, end_]. *)
Definition holyDaysInYear (start end_ : PlainDate) (year : Z) : Z :=
  (if inClosedRange start end_ (holyDayDate year YomKippurDay) then 1 else 0)
  + (if inClosedRange start end_ (holyDayDate year TishaBeavDay) then 1 else 0).

(** The adjusted offset of a date within its own cycle. *)
Definition offsetOf (requested : PlainDate) : option Z :=
  option_map (fun prevCycle => adjustedOffset prevCycle requested)
    (cycleStartOf requested).

(** Every (Hebrew year, holy-day type) pair the counter looks at. *)
Definition holyDayInstances (start end_ : PlainDate) : list (Z * HolyDay) :=
  let jewishStartYear := getJewishYear (fromDate start) in
  let jewishEndYear := getJewishYear (fromDate end_) in
  list_prod
    (yearsFrom jewishStartYear (Z.to_nat (jewishEndYear - jewishStartYear + 1)))
    [YomKippurDay; TishaBeavDay].

(** The tests [start <= date <= end_] that pick the counted instances. *)
Definition countedInstance (start end_ : PlainDate) (p : Z * HolyDay) : bool :=
  inClosedRange start end_ (holyDayDate (fst p) (snd p)).

(** What the counter relies on in its collaborator: moving the Yom Kippur
    (or 9 Av) object to another Hebrew year gives that year's Yom Kippur
    (or 9 Av). *)
Definition YearUpdateLaw : Prop :=
  forall (t : HolyDay) (year i : Z),
    setJewishYear (fromJewish year (holyDayMonth t) (holyDayDay t)) i
    = fromJewish i (holyDayMonth t) (holyDayDay t).

End Calculator.

Arguments YearUpdateLaw HC : clear implicits.

(** ** The arithmetic Hebrew calendar *)

(** Modelled from the spec: the external Hebrew-calendar collaborator
    ([JewishCalendar.ts] and the [JewishDate] class it extends are not among
    the sources).  It converts between civil and Hebrew dates, builds a date
    from a Hebrew (year, month, day), moves a date to another Hebrew year and
    tells which holy day a date falls on.  This instance is the fixed Hebrew
    calendar (molad arithmetic with the four postponements) and serves the
    closed examples.  Errors for malformed Hebrew dates are left out, and
    [getYomTovIndex] tells the two days the calculator asks about from all
    others, which it reports as -1. *)

Module JewishDate.

Definition NISSAN : Z := 1.
Definition AV : Z := 5.
Definition TISHREI : Z := 7.
Definition CHESHVAN : Z := 8.
Definition KISLEV : Z := 9.
Definition ADAR : Z := 12.
Definition ADAR_II : Z := 13.

Definition SUNDAY : Z := 1.
Definition SATURDAY : Z := 7.

(** Day number of the day before 1 Tishrei of Hebrew year 1. *)
Definition JEWISH_EPOCH : Z := -1373429.
Definition CHALAKIM_PER_DAY : Z := 25920.
Definition CHALAKIM_PER_MONTH : Z := 765433.
Definition CHALAKIM_MOLAD_TOHU : Z := 31524.

Definition isJewishLeapYear (year : Z) : bool :=
  Z.rem (7 * year + 1) 19 <? 7.

Definition getLastMonthOfJewishYear (year : Z) : Z :=
  if isJewishLeapYear year then ADAR_II else ADAR.

(** Months from the molad of creation to Tishrei of [year]. *)
Definition monthsElapsed (year : Z) : Z :=
  235 * Z.quot (year - 1) 19
  + 12 * Z.rem (year - 1) 19
  + Z.quot (7 * Z.rem (year - 1) 19 + 1) 19.

Definition addDechiyos (year moladDay moladParts : Z) : Z :=
  let roshHashanaDay :=
    if (moladParts >=? 19440)
       || ((Z.rem moladDay 7 =? 2) && (moladParts >=? 9924)
           && negb (isJewishLeapYear year))
       || ((Z.rem moladDay 7 =? 1) && (moladParts >=? 16789)
           && isJewishLeapYear (year - 1))
    then moladDay + 1 else moladDay in
  if (Z.rem roshHashanaDay 7 =? 0) || (Z.rem roshHashanaDay 7 =? 3)
     || (Z.rem roshHashanaDay 7 =? 5)
  then roshHashanaDay + 1 else roshHashanaDay.

Definition getJewishCalendarElapsedDays (year : Z) : Z :=
  let chalakimSince := CHALAKIM_MOLAD_TOHU + CHALAKIM_PER_MONTH * monthsElapsed year in
  let moladDay := Z.quot chalakimSince CHALAKIM_PER_DAY in
  let moladParts := chalakimSince - moladDay * CHALAKIM_PER_DAY in
  addDechiyos year moladDay moladParts.

Definition getDaysInJewishYear (year : Z) : Z :=
  getJewishCalendarElapsedDays (year + 1) - getJewishCalendarElapsedDays year.

Definition isCheshvanLong (year : Z) : bool :=
  Z.rem (getDaysInJewishYear year) 10 =? 5.

Definition isKislevShort (year : Z) : bool :=
  Z.rem (getDaysInJewishYear year) 10 =? 3.

Definition getDaysInJewishMonth (month year : Z) : Z :=
  if (month =? 2) || (month =? 4) || (month =? 6)
     || ((month =? CHESHVAN) && negb (isCheshvanLong year))
     || ((month =? KISLEV) && isKislevShort year)
     || (month =? 10)
     || ((month =? ADAR) && negb (isJewishLeapYear year))
     || (month =? ADAR_II)
  then 29 else 30.

(** The months [first], ..., [last - 1]. *)
Definition monthsBetween (first last : Z) : list Z :=
  map (fun k => first + Z.of_nat k) (seq 0 (Z.to_nat (last - first))).

Definition daysInMonths (months : list Z) (year : Z) : Z :=
  fold_left (fun elapsed m => elapsed + getDaysInJewishMonth m year) months 0.

Definition getDaysSinceStartOfJewishYear (year month dayOfMonth : Z) : Z :=
  if month <? TISHREI then
    dayOfMonth
    + daysInMonths (monthsBetween TISHREI (getLastMonthOfJewishYear year + 1)) year
    + daysInMonths (monthsBetween NISSAN month) year
  else
    dayOfMonth + daysInMonths (monthsBetween TISHREI month) year.

Definition jewishDateToAbsDate (year month dayOfMonth : Z) : Z :=
  getDaysSinceStartOfJewishYear year month dayOfMonth
  + getJewishCalendarElapsedDays year + JEWISH_EPOCH.

(** Forward search for the Hebrew year of a day number. *)
Fixpoint searchYear (fuel : nat) (absDate year : Z) : Z :=
  match fuel with
  | O => year
  | S fuel' =>
      if absDate >=? jewishDateToAbsDate (year + 1) TISHREI 1
      then searchYear fuel' absDate (year + 1) else year
  end.

(** Forward search for the Hebrew month, from Tishrei or from Nissan. *)
Fixpoint searchMonth (fuel : nat) (absDate year month : Z) : Z :=
  match fuel with
  | O => month
  | S fuel' =>
      if absDate >? jewishDateToAbsDate year month (getDaysInJewishMonth month year)
      then searchMonth fuel' absDate year (month + 1) else month
  end.

Record t : Type := mk {
  jewishYear : Z;
  jewishMonth : Z;
  jewishDay : Z;
  gregorianAbsDate : Z
}.

Definition ofAbsDate (absDate : Z) : t :=
  let approx := Z.quot (absDate - JEWISH_EPOCH) 366 in
  let year := searchYear (Z.to_nat approx + 2) absDate approx in
  let month0 :=
    if absDate <? jewishDateToAbsDate year NISSAN 1 then TISHREI else NISSAN in
  let month := searchMonth 13 absDate year month0 in
  mk year month (absDate - jewishDateToAbsDate year month 1 + 1) absDate.

Definition setJewishDate (year month dayOfMonth : Z) : t :=
  let dayOfMonth :=
    if dayOfMonth >? getDaysInJewishMonth month year
    then getDaysInJewishMonth month year else dayOfMonth in
  mk year month dayOfMonth (jewishDateToAbsDate year month dayOfMonth).

Definition setJewishYear (date : t) (year : Z) : t :=
  setJewishDate year (jewishMonth date) (jewishDay date).

Definition getDayOfWeek (date : t) : Z :=
  Z.abs (Z.rem (gregorianAbsDate date) 7) + 1.

Definition YOM_KIPPUR : Z := 13.
Definition TISHA_BEAV : Z := 7.

Definition getYomTovIndex (date : t) : Z :=
  let day := jewishDay date in
  let dayOfWeek := getDayOfWeek date in
  if (jewishMonth date =? AV)
     && (((dayOfWeek =? SUNDAY) && (day =? 10))
         || (negb (dayOfWeek =? SATURDAY) && (day =? 9)))
  then TISHA_BEAV
  else if (jewishMonth date =? TISHREI) && (day =? 10) then YOM_KIPPUR
  else -1.

End JewishDate.

#[export] Instance KosherJewishCalendar : HebrewCalendar := {|
  JewishCalendar := JewishDate.t;
  fromDate := JewishDate.ofAbsDate;
  fromJewish := JewishDate.setJewishDate;
  getDate := JewishDate.gregorianAbsDate;
  getJewishYear := JewishDate.jewishYear;
  setJewishYear := JewishDate.setJewishYear;
  getYomTovIndex := JewishDate.getYomTovIndex;
  YOM_KIPPUR := JewishDate.YOM_KIPPUR;
  TISHA_BEAV := JewishDate.TISHA_BEAV
|}.

(** ** Dates and the range test *)

Lemma compare_is_lt (a b : PlainDate) :
  (Temporal.compare a b =? -1) = (a <? b).
Proof.
  unfold Temporal.compare, Z.ltb.
  destruct (a ?= b); reflexivity.
Qed.

Lemma includes_accepted (a b : PlainDate) :
  includes [1; 0] (Temporal.compare a b) = (b <=? a).
Proof.
  unfold includes, Temporal.compare, Z.leb. simpl.
  rewrite (Z.compare_antisym a b).
  destruct (a ?= b); reflexivity.
Qed.

Lemma rangeDates_inclusive (start middle end_ : PlainDate) :
  rangeDates start middle end_ true = inClosedRange start end_ middle.
Proof.
  unfold rangeDates, inClosedRange. simpl app.
  now rewrite !includes_accepted.
Qed.

Lemma inClosedRange_true (start end_ date : PlainDate) :
  inClosedRange start end_ date = true <-> start <= date <= end_.
Proof.
  unfold inClosedRange. rewrite andb_true_iff, !Z.leb_le. tauto.
Qed.

(** ** The walk over the table *)

Lemma findDaf_finds (table : list Z) :
  table <> [] ->
  forall masechta total,
    total <= sumZ table ->
    exists d, findDaf table masechta total = Some d.
Proof.
  induction table as [|blatt rest IH]; intros Hne masechta total Hle.
  - contradiction.
  - simpl. destruct (total <=? blatt) eqn:Hcmp.
    + eexists; reflexivity.
    + apply Z.leb_gt in Hcmp. simpl in Hle.
      destruct rest as [|b rest'].
      * simpl in Hle. lia.
      * apply IH; [discriminate | lia].
Qed.

(** C8: the page counts of [BLATT_PER_MASECHTA] add up to exactly
    [WHOLE_SHAS_DAFS], which is 1554. *)
Theorem blatt_sum_is_whole_shas :
  sumZ BLATT_PER_MASECHTA = WHOLE_SHAS_DAFS /\ WHOLE_SHAS_DAFS = 1554.
Proof. split; reflexivity. Qed.

(** C6: for every adjusted offset with 0 <= offset < 1554 the walk over the
    table finds a volume and yields a page reference; it never falls off the
    end of the table. *)
Theorem findDaf_total_below_cycle_length (adjusted : Z) :
  0 <= adjusted < WHOLE_SHAS_DAFS ->
  exists d, findDaf BLATT_PER_MASECHTA 0 adjusted = Some d.
Proof.
  intros [_ Hlt]. apply findDaf_finds.
  - discriminate.
  - change (sumZ BLATT_PER_MASECHTA) with WHOLE_SHAS_DAFS. lia.
Qed.

Lemma findDaf_total_below_cycle_length_witness :
  0 <= 1553 < WHOLE_SHAS_DAFS
  /\ exists d, findDaf BLATT_PER_MASECHTA 0 1553 = Some d.
Proof.
  split.
  - unfold WHOLE_SHAS_DAFS; lia.
  - apply (findDaf_total_below_cycle_length 1553). unfold WHOLE_SHAS_DAFS; lia.
Defined.

(** ** The two guards *)

Section Guards.

Context {HC : HebrewCalendar}.

Lemma excluded_day_returns_null (jewishCalendar : JewishCalendar) :
  getYomTovIndex jewishCalendar = YOM_KIPPUR
  \/ getYomTovIndex jewishCalendar = TISHA_BEAV ->
  getDafYomiYerushalmi jewishCalendar = ReturnNull.
Proof.
  intros Hday. unfold getDafYomiYerushalmi.
  destruct Hday as [-> | ->]; rewrite Z.eqb_refl; [|rewrite orb_true_r]; reflexivity.
Qed.

Lemma not_excluded_guard (jewishCalendar : JewishCalendar) :
  getYomTovIndex jewishCalendar <> YOM_KIPPUR ->
  getYomTovIndex jewishCalendar <> TISHA_BEAV ->
  (getYomTovIndex jewishCalendar =? YOM_KIPPUR)
  || (getYomTovIndex jewishCalendar =? TISHA_BEAV) = false.
Proof.
  intros Hyk Htb. apply orb_false_iff; split; now apply Z.eqb_neq.
Qed.

End Guards.

(** C4: on a date that falls on Yom Kippur or Tisha B'Av the result is the
    no-reading outcome [null], whatever the date's position in a cycle (the
    date itself plays no part). *)
Theorem holy_day_gives_no_reading
        (HC : HebrewCalendar) (jewishCalendar : JewishCalendar) :
  getYomTovIndex jewishCalendar = YOM_KIPPUR
  \/ getYomTovIndex jewishCalendar = TISHA_BEAV ->
  getDafYomiYerushalmi jewishCalendar = ReturnNull.
Proof. apply excluded_day_returns_null. Qed.

Lemma holy_day_gives_no_reading_witness :
  let jewishCalendar := fromDate (Temporal.from 2024 10 12) in
  (getYomTovIndex jewishCalendar = YOM_KIPPUR
   \/ getYomTovIndex jewishCalendar = TISHA_BEAV)
  /\ getDafYomiYerushalmi jewishCalendar = ReturnNull.
Proof.
  split.
  - left; vm_compute; reflexivity.
  - apply (holy_day_gives_no_reading KosherJewishCalendar).
    left; vm_compute; reflexivity.
Defined.

(** C10: the holy-day test comes before the range test, so a date before
    the start of the first cycle that falls on Yom Kippur or Tisha B'Av gives
    [null] and the exception is not thrown. *)
Theorem holy_day_before_start_gives_null
        (HC : HebrewCalendar) (jewishCalendar : JewishCalendar) :
  getDate jewishCalendar < DAF_YOMI_START_DAY ->
  getYomTovIndex jewishCalendar = YOM_KIPPUR
  \/ getYomTovIndex jewishCalendar = TISHA_BEAV ->
  getDafYomiYerushalmi jewishCalendar = ReturnNull
  /\ getDafYomiYerushalmi jewishCalendar <> ThrowIllegalArgument.
Proof.
  intros _ Hday. rewrite (excluded_day_returns_null _ Hday).
  split; [reflexivity | discriminate].
Qed.

Lemma holy_day_before_start_gives_null_witness :
  let jewishCalendar := fromDate (Temporal.from 1979 8 2) in
  getDate jewishCalendar < DAF_YOMI_START_DAY
  /\ getYomTovIndex jewishCalendar = TISHA_BEAV
  /\ getDafYomiYerushalmi jewishCalendar = ReturnNull
  /\ getDafYomiYerushalmi jewishCalendar <> ThrowIllegalArgument.
Proof.
  split; [vm_compute; reflexivity|].
  split; [vm_compute; reflexivity|].
  apply (holy_day_before_start_gives_null KosherJewishCalendar).
  - vm_compute; reflexivity.
  - right; vm_compute; reflexivity.
Defined.

(** C3, as amended: a date before the start of the first cycle that is on
    neither Yom Kippur nor Tisha B'Av is rejected with the
    IllegalArgumentException. *)
Theorem before_start_throws
        (HC : HebrewCalendar) (jewishCalendar : JewishCalendar) :
  getDate jewishCalendar < DAF_YOMI_START_DAY ->
  getYomTovIndex jewishCalendar <> YOM_KIPPUR ->
  getYomTovIndex jewishCalendar <> TISHA_BEAV ->
  getDafYomiYerushalmi jewishCalendar = ThrowIllegalArgument.
Proof.
  intros Hbefore Hyk Htb. unfold getDafYomiYerushalmi.
  rewrite (not_excluded_guard _ Hyk Htb), compare_is_lt.
  apply Z.ltb_lt in Hbefore. now rewrite Hbefore.
Qed.

Lemma before_start_throws_witness :
  let jewishCalendar := fromDate (Temporal.from 1980 2 1) in
  getDate jewishCalendar < DAF_YOMI_START_DAY
  /\ getDafYomiYerushalmi jewishCalendar = ThrowIllegalArgument.
Proof.
  split; [vm_compute; reflexivity|].
  apply (before_start_throws KosherJewishCalendar).
  - vm_compute; reflexivity.
  - vm_compute; discriminate.
  - vm_compute; discriminate.
Defined.

(** C3, as stated, fails: 1 October 1979 is Yom Kippur 5740, four months
    before the first cycle, and the call returns [null] instead of throwing. *)
Lemma before_start_holy_day_does_not_throw :
  let jewishCalendar := fromDate (Temporal.from 1979 10 1) in
  getDate jewishCalendar < DAF_YOMI_START_DAY
  /\ getYomTovIndex jewishCalendar = YOM_KIPPUR
  /\ getDafYomiYerushalmi jewishCalendar = ReturnNull
  /\ getDafYomiYerushalmi jewishCalendar <> ThrowIllegalArgument.
Proof.
  do 3 (split; [vm_compute; reflexivity|]). vm_compute; discriminate.
Qed.

(** ** The special-day counter *)

Section CounterFacts.

Context {HC : HebrewCalendar}.

Lemma specialDaysLoop_ge (start end_ : PlainDate) (n : nat) :
  forall i yomKippur tishaBeav specialDays,
    specialDays
    <= specialDaysLoop start end_ n i yomKippur tishaBeav specialDays.
Proof.
  induction n as [|n IH]; intros i yk tb acc; simpl.
  - lia.
  - match goal with |- _ <= specialDaysLoop _ _ _ _ _ _ ?acc' =>
      specialize (IH (i + 1) (setJewishYear yk i) (setJewishYear tb i) acc')
    end.
    destruct (rangeDates start (getDate (setJewishYear yk i)) end_ true),
             (rangeDates start (getDate (setJewishYear tb i)) end_ true); lia.
Qed.

Lemma getNumOfSpecialDays_nonneg (start end_ : PlainDate) :
  0 <= getNumOfSpecialDays start end_.
Proof. unfold getNumOfSpecialDays. apply specialDaysLoop_ge. Qed.

Lemma nextBoundary_grows (nextCycle : PlainDate) :
  nextCycle + WHOLE_SHAS_DAFS <= nextBoundary nextCycle.
Proof.
  unfold nextBoundary.
  pose proof (getNumOfSpecialDays_nonneg nextCycle (nextCycle + WHOLE_SHAS_DAFS)).
  lia.
Qed.

Lemma holyDaysInYear_nonneg (start end_ : PlainDate) (year : Z) :
  0 <= holyDaysInYear start end_ year.
Proof.
  unfold holyDaysInYear.
  destruct (inClosedRange _ _ (holyDayDate year YomKippurDay)),
           (inClosedRange _ _ (holyDayDate year TishaBeavDay)); lia.
Qed.

Lemma yearsFrom_app (n m : nat) :
  forall first,
    yearsFrom first (n + m)
    = yearsFrom first n ++ yearsFrom (first + Z.of_nat n) m.
Proof.
  induction n as [|n IH]; intros first.
  - simpl. now rewrite Z.add_0_r.
  - change (S n + m)%nat with (S (n + m)). simpl yearsFrom at 1 2.
    rewrite IH. simpl. do 3 f_equal. lia.
Qed.

Lemma in_yearsFrom (n : nat) :
  forall first y,
    In y (yearsFrom first n) <-> first <= y < first + Z.of_nat n.
Proof.
  induction n as [|n IH]; intros first y.
  - simpl. lia.
  - simpl In. rewrite IH. lia.
Qed.

Lemma NoDup_yearsFrom (n : nat) : forall first, NoDup (yearsFrom first n).
Proof.
  induction n as [|n IH]; intros first; simpl; constructor.
  - rewrite in_yearsFrom. lia.
  - apply IH.
Qed.

Section WithYearUpdate.

Hypothesis year_update : YearUpdateLaw HC.

Lemma specialDaysLoop_sum (start end_ : PlainDate) (n : nat) :
  forall i year specialDays,
    specialDaysLoop start end_ n i
      (fromJewish year 7 10) (fromJewish year 5 9) specialDays
    = specialDays + sumZ (map (holyDaysInYear start end_) (yearsFrom i n)).
Proof.
  induction n as [|n IH]; intros i year acc.
  - simpl. lia.
  - pose proof (year_update YomKippurDay year i) as Hyk.
    pose proof (year_update TishaBeavDay year i) as Htb.
    cbn [holyDayMonth holyDayDay] in Hyk, Htb.
    cbn [specialDaysLoop yearsFrom map sumZ fold_right].
    rewrite Hyk, Htb, !rangeDates_inclusive, IH.
    fold (sumZ (map (holyDaysInYear start end_) (yearsFrom (i + 1) n))).
    unfold holyDaysInYear at 2, holyDayDate.
    cbn [holyDayMonth holyDayDay].
    destruct (inClosedRange start end_ (getDate (fromJewish i 7 10))),
             (inClosedRange start end_ (getDate (fromJewish i 5 9))); lia.
Qed.

Lemma getNumOfSpecialDays_sum (start end_ : PlainDate) :
  getNumOfSpecialDays start end_
  = sumZ (map (holyDaysInYear start end_)
            (yearsFrom (getJewishYear (fromDate start))
               (Z.to_nat (getJewishYear (fromDate end_)
                          - getJewishYear (fromDate start) + 1)))).
Proof. unfold getNumOfSpecialDays. now rewrite specialDaysLoop_sum. Qed.

End WithYearUpdate.

Lemma counted_per_year (start end_ : PlainDate) (years : list Z) :
  Z.of_nat (length (filter (countedInstance start end_)
                      (list_prod years [YomKippurDay; TishaBeavDay])))
  = sumZ (map (holyDaysInYear start end_) years).
Proof.
  induction years as [|y years IH].
  - reflexivity.
  - cbn [list_prod map app filter sumZ fold_right].
    fold (sumZ (map (holyDaysInYear start end_) years)).
    rewrite <- IH. unfold holyDaysInYear.
    change (countedInstance start end_ (y, YomKippurDay))
      with (inClosedRange start end_ (holyDayDate y YomKippurDay)).
    change (countedInstance start end_ (y, TishaBeavDay))
      with (inClosedRange start end_ (holyDayDate y TishaBeavDay)).
    destruct (inClosedRange start end_ (holyDayDate y YomKippurDay)),
             (inClosedRange start end_ (holyDayDate y TishaBeavDay));
      cbn [length]; lia.
Qed.

Lemma NoDup_year_instances (years : list Z) :
  NoDup years -> NoDup (list_prod years [YomKippurDay; TishaBeavDay]).
Proof.
  induction 1 as [|y years Hnotin _ IH].
  - constructor.
  - cbn [list_prod map app]. constructor; [|constructor].
    + intros [Heq | Hin]; [discriminate|].
      apply in_prod_iff in Hin. tauto.
    + intros Hin. apply in_prod_iff in Hin. tauto.
    + exact IH.
Qed.

End CounterFacts.

Lemma KosherJewishCalendar_year_update : YearUpdateLaw KosherJewishCalendar.
Proof. intros [] year i; reflexivity. Qed.

(** X13: what the counter counts.  [getNumOfSpecialDays start end_] is the
    number of pairs of a Hebrew year, from that of [start] through that of
    [end_], and one of the two dates 10 Tishrei and 9 Av of that year (the
    dates of the calendar objects built with month 7, day 10 and month 5,
    day 9) that lie in the closed interval from [start] to [end_]; each pair
    is looked at once. *)
Theorem special_days_counted_once
        (HC : HebrewCalendar) (start end_ : PlainDate) :
  YearUpdateLaw HC ->
  0 <= getNumOfSpecialDays start end_
  /\ getNumOfSpecialDays start end_
     = Z.of_nat (length (filter (countedInstance start end_)
                           (holyDayInstances start end_)))
  /\ NoDup (holyDayInstances start end_)
  /\ (forall y t,
        In (y, t) (holyDayInstances start end_)
        <-> getJewishYear (fromDate start) <= y <= getJewishYear (fromDate end_))
  /\ (forall p,
        countedInstance start end_ p = true
        <-> start <= holyDayDate (fst p) (snd p) <= end_).
Proof.
  intros Hlaw. split; [apply getNumOfSpecialDays_nonneg|].
  split; [|split; [|split]].
  - rewrite (getNumOfSpecialDays_sum Hlaw). unfold holyDayInstances.
    now rewrite counted_per_year.
  - apply NoDup_year_instances, NoDup_yearsFrom.
  - intros y t. unfold holyDayInstances.
    rewrite in_prod_iff, in_yearsFrom.
    split.
    + intros [Hy _]. lia.
    + intros Hy. split; [lia | destruct t; simpl; tauto].
  - intros p. apply inClosedRange_true.
Qed.

Lemma special_days_counted_once_witness :
  let start := Temporal.from 1980 2 2 in
  let end_ := Temporal.from 1984 5 5 in
  getNumOfSpecialDays start end_ = 8
  /\ 0 <= getNumOfSpecialDays start end_
  /\ getNumOfSpecialDays start end_
     = Z.of_nat (length (filter (countedInstance start end_)
                           (holyDayInstances start end_)))
  /\ NoDup (holyDayInstances start end_)
  /\ (forall y t,
        In (y, t) (holyDayInstances start end_)
        <-> getJewishYear (fromDate start) <= y <= getJewishYear (fromDate end_))
  /\ (forall p,
        countedInstance start end_ p = true
        <-> start <= holyDayDate (fst p) (snd p) <= end_).
Proof.
  split; [vm_compute; reflexivity|].
  apply (special_days_counted_once KosherJewishCalendar
           (Temporal.from 1980 2 2) (Temporal.from 1984 5 5)).
  exact KosherJewishCalendar_year_update.
Defined.

(** ** The cycle search *)

Lemma add_value (date : PlainDate) (days : Z) (result : PlainDate) :
  Temporal.add date days = Some result ->
  result = date + days /\ Temporal.MIN_DAY <= result <= Temporal.MAX_DAY.
Proof.
  unfold Temporal.add.
  destruct (Z.leb_spec Temporal.MIN_DAY (date + days));
    destruct (Z.leb_spec (date + days) Temporal.MAX_DAY);
    cbn [andb]; intros Hadd; try discriminate.
  injection Hadd as <-. lia.
Qed.

Lemma add_in_range (date : PlainDate) (days : Z) :
  Temporal.MIN_DAY <= date + days <= Temporal.MAX_DAY ->
  Temporal.add date days = Some (date + days).
Proof.
  intros [Hmin Hmax]. unfold Temporal.add.
  apply Z.leb_le in Hmin, Hmax. now rewrite Hmin, Hmax.
Qed.

Lemma add_above_range (date : PlainDate) (days : Z) :
  Temporal.MAX_DAY < date + days -> Temporal.add date days = None.
Proof.
  intros Hmax. unfold Temporal.add.
  apply Z.leb_gt in Hmax. now rewrite Hmax, andb_false_r.
Qed.

Lemma start_day_in_range :
  Temporal.MIN_DAY <= DAF_YOMI_START_DAY <= Temporal.MAX_DAY.
Proof. split; vm_compute; discriminate. Qed.

Section CycleFacts.

Context {HC : HebrewCalendar}.

(** What [advanceCycle] returns is [nextBoundary], within the range. *)
Lemma advanceCycle_value (nextCycle result : PlainDate) :
  advanceCycle nextCycle = Some result ->
  result = nextBoundary nextCycle /\ result <= Temporal.MAX_DAY.
Proof.
  unfold advanceCycle, nextBoundary.
  destruct (Temporal.add nextCycle WHOLE_SHAS_DAFS) as [mid|] eqn:Hfirst;
    [|discriminate].
  apply add_value in Hfirst. destruct Hfirst as [-> _].
  intros Hsecond. apply add_value in Hsecond. lia.
Qed.

Lemma advanceCycle_in_range (nextCycle : PlainDate) :
  Temporal.MIN_DAY <= nextCycle ->
  nextBoundary nextCycle <= Temporal.MAX_DAY ->
  advanceCycle nextCycle = Some (nextBoundary nextCycle).
Proof.
  intros Hmin Hmax. unfold advanceCycle.
  pose proof (nextBoundary_grows nextCycle) as Hgrows.
  pose proof (getNumOfSpecialDays_nonneg nextCycle
                (nextCycle + WHOLE_SHAS_DAFS)) as Hcount.
  assert (0 < WHOLE_SHAS_DAFS) by reflexivity.
  unfold nextBoundary in Hmax.
  rewrite add_in_range by lia. now rewrite add_in_range by lia.
Qed.

Lemma advanceCycle_throws (nextCycle : PlainDate) :
  Temporal.MAX_DAY < nextBoundary nextCycle ->
  advanceCycle nextCycle = None.
Proof.
  intros Hmax. unfold advanceCycle.
  destruct (Temporal.add nextCycle WHOLE_SHAS_DAFS) as [mid|] eqn:Hfirst;
    [|reflexivity].
  apply add_value in Hfirst. destruct Hfirst as [-> _].
  apply add_above_range. exact Hmax.
Qed.

Lemma cycleSearch_stops (fuel : nat) (prevCycle nextCycle requested : PlainDate) :
  requested <= nextCycle ->
  cycleSearch fuel prevCycle nextCycle requested = Found prevCycle nextCycle.
Proof.
  intros Hle. apply Z.ltb_ge in Hle.
  destruct fuel; cbn [cycleSearch]; now rewrite compare_is_lt, Hle.
Qed.

Lemma cycleSearch_steps (fuel : nat) (prevCycle nextCycle requested : PlainDate) :
  nextCycle < requested ->
  cycleSearch (S fuel) prevCycle nextCycle requested
  = match advanceCycle nextCycle with
    | None => SearchRangeError
    | Some nextCycle' => cycleSearch fuel nextCycle nextCycle' requested
    end.
Proof.
  intros Hlt. apply Z.ltb_lt in Hlt.
  cbn [cycleSearch]. now rewrite compare_is_lt, Hlt.
Qed.

Lemma cycleSearch_no_fuel (prevCycle nextCycle requested : PlainDate) :
  nextCycle < requested ->
  cycleSearch 0 prevCycle nextCycle requested = SearchOutOfFuel.
Proof.
  intros Hlt. apply Z.ltb_lt in Hlt.
  cbn [cycleSearch]. now rewrite compare_is_lt, Hlt.
Qed.

(** The loop ends: every pass moves [nextCycle] on by at least
    [WHOLE_SHAS_DAFS] days, or throws. *)
Lemma cycleSearch_enough_fuel (fuel : nat) :
  forall prevCycle nextCycle requested,
    requested - nextCycle < WHOLE_SHAS_DAFS * Z.of_nat fuel ->
    cycleSearch fuel prevCycle nextCycle requested <> SearchOutOfFuel.
Proof.
  induction fuel as [|fuel IH]; intros prev next requested Hfuel.
  - rewrite cycleSearch_stops by lia. discriminate.
  - destruct (Z_lt_le_dec next requested) as [Hlt | Hge].
    + rewrite cycleSearch_steps by exact Hlt.
      destruct (advanceCycle next) as [next'|] eqn:Hstep; [|discriminate].
      apply IH. apply advanceCycle_value in Hstep.
      pose proof (nextBoundary_grows next). lia.
    + rewrite cycleSearch_stops by exact Hge. discriminate.
Qed.

Lemma cycleFuel_enough (requested : PlainDate) :
  requested - DAF_YOMI_START_DAY
  < WHOLE_SHAS_DAFS * Z.of_nat (cycleFuel requested).
Proof.
  unfold cycleFuel.
  pose proof (Z.mul_succ_div_gt (requested - DAF_YOMI_START_DAY)
                WHOLE_SHAS_DAFS eq_refl) as Hdiv.
  unfold WHOLE_SHAS_DAFS in *.
  set (q := (requested - DAF_YOMI_START_DAY) / 1554) in *.
  lia.
Qed.

Lemma cycleSearch_more_fuel (fuel : nat) :
  forall fuel' prevCycle nextCycle requested,
    (fuel <= fuel')%nat ->
    cycleSearch fuel prevCycle nextCycle requested <> SearchOutOfFuel ->
    cycleSearch fuel' prevCycle nextCycle requested
    = cycleSearch fuel prevCycle nextCycle requested.
Proof.
  induction fuel as [|fuel IH]; intros fuel' prev next requested Hle Hrun.
  - destruct (Z_lt_le_dec next requested) as [Hlt | Hge].
    + now rewrite cycleSearch_no_fuel in Hrun by exact Hlt.
    + now rewrite !cycleSearch_stops by exact Hge.
  - destruct (Z_lt_le_dec next requested) as [Hlt | Hge].
    + destruct fuel' as [|fuel']; [lia|].
      rewrite cycleSearch_steps in Hrun |- * by exact Hlt.
      rewrite (cycleSearch_steps fuel) by exact Hlt.
      destruct (advanceCycle next) as [next'|]; [|reflexivity].
      apply IH; [lia | exact Hrun].
    + now rewrite !cycleSearch_stops by exact Hge.
Qed.

(** The model's fuel never runs out. *)
Lemma getDafYomiYerushalmi_terminates (jewishCalendar : JewishCalendar) :
  getDafYomiYerushalmi jewishCalendar <> OutOfFuel.
Proof.
  unfold getDafYomiYerushalmi.
  destruct (_ || _); [discriminate|].
  destruct (_ =? -1); [discriminate|].
  pose proof (cycleSearch_enough_fuel (cycleFuel (getDate jewishCalendar))
                DAF_YOMI_START_DAY DAF_YOMI_START_DAY (getDate jewishCalendar)
                (cycleFuel_enough _)) as Hfuel.
  destruct (cycleSearch _ _ _ _) as [prev next| |];
    [|discriminate|contradiction].
  destruct (findDaf _ _ _); discriminate.
Qed.

Lemma cycleBoundary_grows (k : nat) :
  cycleBoundary k + WHOLE_SHAS_DAFS <= cycleBoundary (S k).
Proof. cbn [cycleBoundary]. apply nextBoundary_grows. Qed.

Lemma cycleBoundary_lt (j k : nat) :
  (j < k)%nat -> cycleBoundary j < cycleBoundary k.
Proof.
  assert (0 < WHOLE_SHAS_DAFS) by reflexivity.
  induction 1 as [|k _ IH].
  - pose proof (cycleBoundary_grows j). lia.
  - pose proof (cycleBoundary_grows k). lia.
Qed.

Lemma cycleBoundary_le (j k : nat) :
  (j <= k)%nat -> cycleBoundary j <= cycleBoundary k.
Proof.
  intros Hjk. destruct (Nat.eq_dec j k) as [-> | Hne]; [lia|].
  pose proof (cycleBoundary_lt j k ltac:(lia)). lia.
Qed.

Lemma cycleBoundary_spread (j n : nat) :
  cycleBoundary j + WHOLE_SHAS_DAFS * Z.of_nat n <= cycleBoundary (j + n).
Proof.
  induction n as [|n IH].
  - rewrite Nat.add_0_r. lia.
  - rewrite Nat.add_succ_r. pose proof (cycleBoundary_grows (j + n)). lia.
Qed.

Lemma cycleBoundary_in_range (k : nat) :
  Temporal.MIN_DAY <= cycleBoundary k.
Proof.
  pose proof (cycleBoundary_le 0 k (Nat.le_0_l k)) as Hle.
  cbn [cycleBoundary] in Hle.
  pose proof start_day_in_range. lia.
Qed.

(** Every date after the start lies after one boundary and not after the
    next. *)
Lemma bracket_exists (requested : PlainDate) (n : nat) :
  DAF_YOMI_START_DAY < requested ->
  requested <= cycleBoundary n ->
  exists k, (k < n)%nat /\ cycleBoundary k < requested <= cycleBoundary (S k).
Proof.
  intros Hafter. induction n as [|n IH]; intros Hle.
  - cbn [cycleBoundary] in Hle. lia.
  - destruct (Z_lt_le_dec (cycleBoundary n) requested) as [Hlt | Hge].
    + exists n. split; [lia | split; assumption].
    + destruct (IH Hge) as (k & Hk & Hbr). exists k. split; [lia | exact Hbr].
Qed.

Lemma bracket_of_request (requested : PlainDate) :
  DAF_YOMI_START_DAY < requested ->
  exists k, cycleBoundary k < requested <= cycleBoundary (S k).
Proof.
  intros Hafter.
  destruct (bracket_exists requested
              (Z.to_nat (requested - DAF_YOMI_START_DAY)) Hafter)
    as (k & _ & Hbr).
  - pose proof (cycleBoundary_spread 0
                  (Z.to_nat (requested - DAF_YOMI_START_DAY))) as Hspread.
    cbn [cycleBoundary Nat.add] in Hspread.
    unfold WHOLE_SHAS_DAFS in Hspread. lia.
  - exists k. exact Hbr.
Qed.

(** From a boundary before the requested date, the loop ends with the two
    boundaries around the date when the later one is within the range of
    [Temporal.PlainDate], and with the RangeError when it is not. *)
Lemma cycleSearch_reaches (k : nat) (fuel : nat) :
  forall j prevCycle requested,
    (j <= k)%nat ->
    cycleBoundary k < requested <= cycleBoundary (S k) ->
    requested - cycleBoundary j < WHOLE_SHAS_DAFS * Z.of_nat fuel ->
    cycleSearch fuel prevCycle (cycleBoundary j) requested
    = if cycleBoundary (S k) <=? Temporal.MAX_DAY
      then Found (cycleBoundary k) (cycleBoundary (S k))
      else SearchRangeError.
Proof.
  induction fuel as [|fuel IH]; intros j prev requested Hjk Hbr Hfuel.
  - pose proof (cycleBoundary_le j k Hjk). lia.
  - pose proof (cycleBoundary_le j k Hjk) as Hle.
    pose proof (cycleBoundary_in_range j) as Hmin.
    rewrite cycleSearch_steps by lia.
    destruct (Nat.eq_dec j k) as [-> | Hne].
    + destruct (Z.leb_spec (cycleBoundary (S k)) Temporal.MAX_DAY) as [Hin | Hout].
      * rewrite advanceCycle_in_range by assumption.
        apply cycleSearch_stops. apply Hbr.
      * now rewrite advanceCycle_throws by exact Hout.
    + pose proof (cycleBoundary_le (S j) k ltac:(lia)) as Hnext.
      pose proof (cycleBoundary_grows j) as Hgrow.
      pose proof (cycleBoundary_grows k) as Hgrowk.
      assert (0 < WHOLE_SHAS_DAFS) by reflexivity.
      destruct (Z_le_gt_dec (cycleBoundary (S j)) Temporal.MAX_DAY) as [Hin | Hout].
      * rewrite advanceCycle_in_range by assumption.
        change (nextBoundary (cycleBoundary j)) with (cycleBoundary (S j)).
        apply IH; [lia | exact Hbr | lia].
      * rewrite advanceCycle_throws
          by (change (nextBoundary (cycleBoundary j)) with (cycleBoundary (S j)); lia).
        destruct (Z.leb_spec (cycleBoundary (S k)) Temporal.MAX_DAY); [lia|].
        reflexivity.
Qed.

Lemma cycleSearch_from_start (k : nat) (requested : PlainDate) :
  cycleBoundary k < requested <= cycleBoundary (S k) ->
  cycleSearch (cycleFuel requested)
    DAF_YOMI_START_DAY DAF_YOMI_START_DAY requested
  = if cycleBoundary (S k) <=? Temporal.MAX_DAY
    then Found (cycleBoundary k) (cycleBoundary (S k))
    else SearchRangeError.
Proof.
  intros Hbr.
  apply (cycleSearch_reaches k (cycleFuel requested) 0%nat
           DAF_YOMI_START_DAY requested (Nat.le_0_l k) Hbr).
  apply cycleFuel_enough.
Qed.

(** When the loop ends with a cycle start, the date lies between that start
    and the boundary after it. *)
Lemma cycleStartOf_bounds (requested prevCycle : PlainDate) :
  DAF_YOMI_START_DAY <= requested ->
  cycleStartOf requested = Some prevCycle ->
  DAF_YOMI_START_DAY <= prevCycle <= requested
  /\ requested <= nextBoundary prevCycle.
Proof.
  intros Hge Hstart. unfold cycleStartOf in Hstart.
  destruct (Z.eq_dec requested DAF_YOMI_START_DAY) as [-> | Hne].
  - rewrite cycleSearch_stops in Hstart by apply Z.le_refl.
    injection Hstart as <-.
    pose proof (nextBoundary_grows DAF_YOMI_START_DAY).
    unfold WHOLE_SHAS_DAFS in *. lia.
  - destruct (bracket_of_request requested ltac:(lia)) as (k & Hbr).
    rewrite (cycleSearch_from_start k requested Hbr) in Hstart.
    destruct (_ <=? _); [|discriminate].
    injection Hstart as <-.
    pose proof (cycleBoundary_le 0 k (Nat.le_0_l k)) as Hle.
    cbn [cycleBoundary] in Hle.
    change (nextBoundary (cycleBoundary k)) with (cycleBoundary (S k)). lia.
Qed.

Lemma cycleStartOf_boundary (k : nat) :
  cycleBoundary (S k) <= Temporal.MAX_DAY ->
  cycleStartOf (cycleBoundary (S k)) = Some (cycleBoundary k).
Proof.
  intros Hin. unfold cycleStartOf.
  rewrite (cycleSearch_from_start k).
  - apply Z.leb_le in Hin. now rewrite Hin.
  - pose proof (cycleBoundary_lt k (S k) ltac:(lia)). lia.
Qed.

(** On a boundary date the offset is that of a whole cycle, not 0. *)
Lemma offsetOf_boundary (k : nat) :
  cycleBoundary (S k) <= Temporal.MAX_DAY ->
  offsetOf (cycleBoundary (S k))
  = Some (WHOLE_SHAS_DAFS
          + getNumOfSpecialDays (cycleBoundary k)
              (cycleBoundary k + WHOLE_SHAS_DAFS)
          - getNumOfSpecialDays (cycleBoundary k) (cycleBoundary (S k))).
Proof.
  intros Hin. unfold offsetOf. rewrite cycleStartOf_boundary by exact Hin.
  cbn [option_map]. unfold adjustedOffset, Temporal.sinceDays. f_equal.
  change (cycleBoundary (S k)) with (nextBoundary (cycleBoundary k)) at 1.
  unfold nextBoundary. lia.
Qed.

Lemma getDafYomiYerushalmi_by_offset
      (jewishCalendar : JewishCalendar) (prevCycle : PlainDate) :
  getYomTovIndex jewishCalendar <> YOM_KIPPUR ->
  getYomTovIndex jewishCalendar <> TISHA_BEAV ->
  DAF_YOMI_START_DAY <= getDate jewishCalendar ->
  cycleStartOf (getDate jewishCalendar) = Some prevCycle ->
  getDafYomiYerushalmi jewishCalendar
  = match findDaf BLATT_PER_MASECHTA 0
            (adjustedOffset prevCycle (getDate jewishCalendar)) with
    | Some dafYomi => ReturnDaf dafYomi
    | None => ReturnUndefined
    end.
Proof.
  intros Hyk Htb Hstart Hcycle. unfold getDafYomiYerushalmi.
  rewrite (not_excluded_guard _ Hyk Htb), compare_is_lt.
  apply Z.ltb_ge in Hstart. rewrite Hstart.
  unfold cycleStartOf in Hcycle.
  destruct (cycleSearch _ _ _ _) as [prev next| |]; try discriminate.
  now injection Hcycle as ->.
Qed.

End CycleFacts.

(** ** Offsets within a cycle *)

Lemma sumZ_app (l1 l2 : list Z) : sumZ (l1 ++ l2) = sumZ l1 + sumZ l2.
Proof.
  induction l1 as [|x l1 IH]; simpl; [reflexivity|].
  fold (sumZ (l1 ++ l2)) (sumZ l1). lia.
Qed.

Lemma sumZ_map_ext_in (f g : Z -> Z) (l : list Z) :
  (forall y, In y l -> f y = g y) -> sumZ (map f l) = sumZ (map g l).
Proof.
  intros Hext. unfold sumZ. now rewrite (map_ext_in f g l Hext).
Qed.

Lemma sumZ_map_zero (f : Z -> Z) (l : list Z) :
  (forall y, In y l -> f y = 0) -> sumZ (map f l) = 0.
Proof.
  induction l as [|x l IH]; intros Hzero; simpl; [reflexivity|].
  fold (sumZ (map f l)).
  rewrite (Hzero x (or_introl eq_refl)), IH; [reflexivity|].
  intros y Hy. apply Hzero. now right.
Qed.

Section OffsetFacts.

Context {HC : HebrewCalendar}.
Hypothesis year_update : YearUpdateLaw HC.

Lemma holyDaysInYear_same (start d1 d2 : PlainDate) (year : Z) :
  d1 < d2 ->
  (forall t, ~ d1 < holyDayDate year t <= d2) ->
  holyDaysInYear start d2 year = holyDaysInYear start d1 year.
Proof.
  intros Hlt Hnone. unfold holyDaysInYear, inClosedRange.
  pose proof (Hnone YomKippurDay). pose proof (Hnone TishaBeavDay).
  repeat match goal with
         | |- context [?a <=? ?b] => destruct (Z.leb_spec a b)
         end; simpl; lia.
Qed.

Lemma holyDaysInYear_none (start d1 d2 : PlainDate) (year : Z) :
  (forall t, d1 < holyDayDate year t) ->
  (forall t, ~ d1 < holyDayDate year t <= d2) ->
  holyDaysInYear start d2 year = 0.
Proof.
  intros Hafter Hnone. unfold holyDaysInYear, inClosedRange.
  pose proof (Hnone YomKippurDay). pose proof (Hnone TishaBeavDay).
  pose proof (Hafter YomKippurDay). pose proof (Hafter TishaBeavDay).
  repeat match goal with
         | |- context [?a <=? ?b] => destruct (Z.leb_spec a b)
         end; simpl; lia.
Qed.

(** With no counted holy day after [d1] up to [d2], the counter gives the
    same number for both dates. *)
Lemma getNumOfSpecialDays_stable (prevCycle d1 d2 : PlainDate) :
  d1 < d2 ->
  getJewishYear (fromDate d1) <= getJewishYear (fromDate d2) ->
  (forall y t,
      getJewishYear (fromDate d1) < y <= getJewishYear (fromDate d2) ->
      d1 < holyDayDate y t) ->
  (forall y t,
      getJewishYear (fromDate prevCycle) <= y <= getJewishYear (fromDate d2) ->
      ~ d1 < holyDayDate y t <= d2) ->
  getNumOfSpecialDays prevCycle d2 = getNumOfSpecialDays prevCycle d1.
Proof.
  intros Hlt Hyears Hlater Hnone.
  rewrite !(getNumOfSpecialDays_sum year_update).
  set (yp := getJewishYear (fromDate prevCycle)) in *.
  set (y1 := getJewishYear (fromDate d1)) in *.
  set (y2 := getJewishYear (fromDate d2)) in *.
  set (n1 := Z.to_nat (y1 - yp + 1)).
  replace (Z.to_nat (y2 - yp + 1))
    with (n1 + (Z.to_nat (y2 - yp + 1) - n1))%nat by (subst n1; lia).
  rewrite yearsFrom_app, map_app, sumZ_app.
  rewrite (sumZ_map_zero (holyDaysInYear prevCycle d2)
             (yearsFrom (yp + Z.of_nat n1) _)).
  - rewrite Z.add_0_r. apply sumZ_map_ext_in.
    intros y Hy. apply in_yearsFrom in Hy.
    apply holyDaysInYear_same; [exact Hlt|].
    intros t. apply Hnone. subst n1. lia.
  - intros y Hy. apply in_yearsFrom in Hy.
    apply (holyDaysInYear_none prevCycle d1).
    + intros t. apply Hlater. subst n1. lia.
    + intros t. apply Hnone. subst n1. lia.
Qed.

Lemma getNumOfSpecialDays_single_day (date : PlainDate) :
  (forall t, holyDayDate (getJewishYear (fromDate date)) t <> date) ->
  getNumOfSpecialDays date date = 0.
Proof.
  intros Hnot. rewrite (getNumOfSpecialDays_sum year_update).
  apply sumZ_map_zero. intros y Hy. apply in_yearsFrom in Hy.
  assert (y = getJewishYear (fromDate date)) as -> by lia.
  unfold holyDaysInYear, inClosedRange.
  pose proof (Hnot YomKippurDay). pose proof (Hnot TishaBeavDay).
  repeat match goal with
         | |- context [?a <=? ?b] => destruct (Z.leb_spec a b)
         end; simpl; lia.
Qed.

End OffsetFacts.

(** C7: for the start date of the first cycle, 2 February 1980, the result
    is volume 0, page 1 (the calendar being one in which that day is not
    itself Yom Kippur or 9 Av). *)
Theorem start_day_is_first_page
        (HC : HebrewCalendar) (jewishCalendar : JewishCalendar) :
  YearUpdateLaw HC ->
  getDate jewishCalendar = DAF_YOMI_START_DAY ->
  getYomTovIndex jewishCalendar <> YOM_KIPPUR ->
  getYomTovIndex jewishCalendar <> TISHA_BEAV ->
  (forall t,
      holyDayDate (getJewishYear (fromDate DAF_YOMI_START_DAY)) t
      <> DAF_YOMI_START_DAY) ->
  DAF_YOMI_START_DAY = Temporal.from 1980 2 2
  /\ getDafYomiYerushalmi jewishCalendar = ReturnDaf (mkDaf 0 1).
Proof.
  intros Hlaw Hdate Hyk Htb Hnot. split; [reflexivity|].
  rewrite (getDafYomiYerushalmi_by_offset jewishCalendar DAF_YOMI_START_DAY Hyk Htb).
  - rewrite Hdate. unfold adjustedOffset, Temporal.sinceDays.
    rewrite (getNumOfSpecialDays_single_day Hlaw _ Hnot), Z.sub_diag.
    reflexivity.
  - rewrite Hdate. apply Z.le_refl.
  - rewrite Hdate. unfold cycleStartOf.
    now rewrite cycleSearch_stops by apply Z.le_refl.
Qed.

Lemma start_day_is_first_page_witness :
  DAF_YOMI_START_DAY = Temporal.from 1980 2 2
  /\ getDafYomiYerushalmi (fromDate (Temporal.from 1980 2 2))
     = ReturnDaf (mkDaf 0 1).
Proof.
  apply (start_day_is_first_page KosherJewishCalendar
           (fromDate (Temporal.from 1980 2 2))).
  - exact KosherJewishCalendar_year_update.
  - vm_compute; reflexivity.
  - vm_compute; discriminate.
  - vm_compute; discriminate.
  - intros []; vm_compute; discriminate.
Defined.

(** X14: two dates d1 < d2 of one cycle (the loop finds the same cycle start
    for both) with none of the dates the counter tests (10 Tishrei, 9 Av)
    after d1 up to d2 have adjusted offsets offset(d1) < offset(d2).  The
    calendar is taken to order its years: the Hebrew year of d1 is not after
    that of d2, and the tested dates of Hebrew years after that of d1 fall
    after d1. *)
Theorem offset_increases_within_cycle
        (HC : HebrewCalendar) (prevCycle d1 d2 : PlainDate) :
  YearUpdateLaw HC ->
  d1 < d2 ->
  cycleStartOf d1 = Some prevCycle ->
  cycleStartOf d2 = Some prevCycle ->
  getJewishYear (fromDate d1) <= getJewishYear (fromDate d2) ->
  (forall y t,
      getJewishYear (fromDate d1) < y <= getJewishYear (fromDate d2) ->
      d1 < holyDayDate y t) ->
  (forall y t,
      getJewishYear (fromDate prevCycle) <= y <= getJewishYear (fromDate d2) ->
      ~ d1 < holyDayDate y t <= d2) ->
  exists o1 o2,
    offsetOf d1 = Some o1 /\ offsetOf d2 = Some o2 /\ o1 < o2.
Proof.
  intros Hlaw Hlt Hc1 Hc2 Hyears Hlater Hnone.
  exists (adjustedOffset prevCycle d1), (adjustedOffset prevCycle d2).
  unfold offsetOf. rewrite Hc1, Hc2. repeat split.
  unfold adjustedOffset, Temporal.sinceDays.
  rewrite (getNumOfSpecialDays_stable Hlaw prevCycle d1 d2 Hlt Hyears Hlater Hnone).
  lia.
Qed.

Lemma offset_increases_within_cycle_witness :
  Temporal.from 1980 9 5 < Temporal.from 1980 9 15
  /\ cycleStartOf (Temporal.from 1980 9 5) = Some DAF_YOMI_START_DAY
  /\ cycleStartOf (Temporal.from 1980 9 15) = Some DAF_YOMI_START_DAY
  /\ getJewishYear (fromDate (Temporal.from 1980 9 5)) = 5740
  /\ getJewishYear (fromDate (Temporal.from 1980 9 15)) = 5741
  /\ exists o1 o2,
      offsetOf (Temporal.from 1980 9 5) = Some o1
      /\ offsetOf (Temporal.from 1980 9 15) = Some o2
      /\ o1 < o2.
Proof.
  assert (Hy1 : getJewishYear (fromDate (Temporal.from 1980 9 5)) = 5740)
    by (vm_compute; reflexivity).
  assert (Hy2 : getJewishYear (fromDate (Temporal.from 1980 9 15)) = 5741)
    by (vm_compute; reflexivity).
  assert (Hyp : getJewishYear (fromDate DAF_YOMI_START_DAY) = 5740)
    by (vm_compute; reflexivity).
  split; [vm_compute; reflexivity|].
  split; [vm_compute; reflexivity|].
  split; [vm_compute; reflexivity|].
  split; [exact Hy1|].
  split; [exact Hy2|].
  apply (offset_increases_within_cycle KosherJewishCalendar
           DAF_YOMI_START_DAY (Temporal.from 1980 9 5) (Temporal.from 1980 9 15)).
  - exact KosherJewishCalendar_year_update.
  - vm_compute; reflexivity.
  - vm_compute; reflexivity.
  - vm_compute; reflexivity.
  - rewrite Hy1, Hy2. lia.
  - intros y t. rewrite Hy1, Hy2. intros Hy.
    assert (y = 5741) as -> by lia.
    destruct t; vm_compute; reflexivity.
  - intros y t. rewrite Hyp, Hy2. intros Hy.
    assert (y = 5740 \/ y = 5741) as [-> | ->] by lia;
      destruct t; vm_compute; intros [Hafter Hupto];
      try discriminate Hafter; apply Hupto; reflexivity.
Defined.

(** On whatever calendar, a boundary day within the range of
    [Temporal.PlainDate] that is no holy day and has no further counted day
    in the days the boundary was moved by gets page 14 of the last volume. *)
Lemma boundary_day_runs_past_table
      (HC : HebrewCalendar) (k : nat) (jewishCalendar : JewishCalendar) :
  getDate jewishCalendar = cycleBoundary (S k) ->
  cycleBoundary (S k) <= Temporal.MAX_DAY ->
  getYomTovIndex jewishCalendar <> YOM_KIPPUR ->
  getYomTovIndex jewishCalendar <> TISHA_BEAV ->
  getNumOfSpecialDays (cycleBoundary k) (cycleBoundary (S k))
  = getNumOfSpecialDays (cycleBoundary k) (cycleBoundary k + WHOLE_SHAS_DAFS) ->
  getDafYomiYerushalmi jewishCalendar = ReturnDaf (mkDaf 38 14).
Proof.
  intros Hdate Hin Hyk Htb Hsame.
  rewrite (getDafYomiYerushalmi_by_offset jewishCalendar (cycleBoundary k) Hyk Htb).
  - rewrite Hdate. unfold adjustedOffset, Temporal.sinceDays. rewrite Hsame.
    change (cycleBoundary (S k)) with (nextBoundary (cycleBoundary k)).
    unfold nextBoundary.
    match goal with
    | |- context [findDaf _ _ ?total] =>
        replace total with WHOLE_SHAS_DAFS by lia
    end.
    reflexivity.
  - rewrite Hdate.
    pose proof (cycleBoundary_lt 0 (S k) (Nat.lt_0_succ k)) as Hlt.
    simpl cycleBoundary at 1 in Hlt. lia.
  - rewrite Hdate. apply cycleStartOf_boundary. exact Hin.
Qed.

(** ** Runs on the arithmetic Hebrew calendar *)

(** C1, on the code: 10 April 1980 is day 68 of the first cycle, with no
    holy day since the start; the walk accepts [68 <= 68] in volume 0 and
    returns page 69 of a volume that has 68 pages. *)
Theorem page_number_exceeds_page_count :
  getDate (fromDate (Temporal.from 1980 4 10)) = DAF_YOMI_START_DAY + 68
  /\ getDafYomiYerushalmi (fromDate (Temporal.from 1980 4 10))
     = ReturnDaf (mkDaf 0 69)
  /\ nth 0 BLATT_PER_MASECHTA 0 = 68.
Proof.
  do 2 (split; [vm_compute; reflexivity|]). vm_compute; reflexivity.
Qed.

(** C2, on the code: 13 May 1984 is the first cycle boundary after the start
    (1554 days and 8 holy days on) and no holy day itself; the loop stops
    with [prevCycle] at the start of the first cycle, the offset is 1554, and
    the result is volume 38, page 14, not volume 0, page 1. *)
Theorem boundary_day_is_not_first_page :
  cycleBoundary 1 = Temporal.from 1984 5 13
  /\ getYomTovIndex (fromDate (cycleBoundary 1)) <> YOM_KIPPUR
  /\ getYomTovIndex (fromDate (cycleBoundary 1)) <> TISHA_BEAV
  /\ offsetOf (cycleBoundary 1) = Some 1554
  /\ getDafYomiYerushalmi (fromDate (cycleBoundary 1))
     = ReturnDaf (mkDaf 38 14)
  /\ nth 38 BLATT_PER_MASECHTA 0 = 13.
Proof.
  split; [vm_compute; reflexivity|].
  do 2 (split; [vm_compute; discriminate|]).
  do 2 (split; [vm_compute; reflexivity|]). vm_compute; reflexivity.
Qed.


(** C5, on the code: 9 Av 5782 is Saturday 6 August 2022, and the calendar
    reports Tisha B'Av on Sunday 7 August.  The call for 6 August 2022 counts
    from the cycle start, 4 August 2018, to that day: the counter returns 8,
    while 7 excluded holy days lie in the interval, the eighth counted day
    being 6 August itself, on which a page is returned.  On the single day
    6 August the counter gives 1 and on the single day 7 August, when the
    call returns [null], it gives 0. *)
Theorem counter_counts_a_day_with_a_page :
  cycleStartOf (Temporal.from 2022 8 6) = Some (Temporal.from 2018 8 4)
  /\ getNumOfSpecialDays (Temporal.from 2018 8 4) (Temporal.from 2022 8 6) = 8
  /\ excludedDaysBetween (Temporal.from 2018 8 4) (Temporal.from 2022 8 6) = 7
  /\ isExcludedDay (Temporal.from 2022 8 6) = false
  /\ getDafYomiYerushalmi (fromDate (Temporal.from 2022 8 6))
     = ReturnDaf (mkDaf 35 28)
  /\ getNumOfSpecialDays (Temporal.from 2022 8 6) (Temporal.from 2022 8 6) = 1
  /\ isExcludedDay (Temporal.from 2022 8 7) = true
  /\ getDafYomiYerushalmi (fromDate (Temporal.from 2022 8 7)) = ReturnNull
  /\ getNumOfSpecialDays (Temporal.from 2022 8 7) (Temporal.from 2022 8 7) = 0.
Proof.
  do 8 (split; [vm_compute; reflexivity|]). vm_compute; reflexivity.
Qed.

(** C9, on the code: 5 and 6 August 2022 lie in one cycle and 6 August, the
    only day after the 5th up to the 6th, is no excluded holy day (a page is
    returned on it); yet both days have the adjusted offset 1455 and the same
    page, because the counter counts 9 Av, 6 August, as a special day. *)
Theorem offset_repeats_on_counted_day :
  Temporal.from 2022 8 5 < Temporal.from 2022 8 6
  /\ cycleStartOf (Temporal.from 2022 8 5) = Some (Temporal.from 2018 8 4)
  /\ cycleStartOf (Temporal.from 2022 8 6) = Some (Temporal.from 2018 8 4)
  /\ excludedDaysBetween (Temporal.from 2022 8 5 + 1) (Temporal.from 2022 8 6) = 0
  /\ offsetOf (Temporal.from 2022 8 5) = Some 1455
  /\ offsetOf (Temporal.from 2022 8 6) = Some 1455
  /\ getDafYomiYerushalmi (fromDate (Temporal.from 2022 8 5))
     = ReturnDaf (mkDaf 35 28)
  /\ getDafYomiYerushalmi (fromDate (Temporal.from 2022 8 6))
     = ReturnDaf (mkDaf 35 28).
Proof.
  do 7 (split; [vm_compute; reflexivity|]). vm_compute; reflexivity.
Qed.

(** ** Further properties: the range test *)

(** X1: [rangeDates] holds exactly for start <= middle <= end when
    inclusive (the default), and exactly for start < middle < end when not. *)
Theorem rangeDates_both_modes (start middle end_ : PlainDate) :
  (rangeDates start middle end_ true = true <-> start <= middle <= end_)
  /\ (rangeDates start middle end_ false = true <-> start < middle < end_).
Proof.
  split.
  - rewrite rangeDates_inclusive. apply inClosedRange_true.
  - unfold rangeDates, includes, Temporal.compare. simpl.
    destruct (Z.compare_spec middle start), (Z.compare_spec end_ middle);
      simpl; split; intros; try discriminate; try lia; reflexivity.
Qed.

(** ** Further properties: the walk over the table *)

Lemma pagesBefore_cons (blatt : Z) (rest : list Z) (j : Z) :
  0 < j ->
  pagesBefore (blatt :: rest) j = blatt + pagesBefore rest (j - 1).
Proof.
  intros Hj. unfold pagesBefore.
  replace (Z.to_nat j) with (S (Z.to_nat (j - 1))) by lia.
  reflexivity.
Qed.

Lemma nth_cons_pos (blatt : Z) (rest : list Z) (j : Z) :
  0 < j ->
  nth (Z.to_nat j) (blatt :: rest) 0 = nth (Z.to_nat (j - 1)) rest 0.
Proof.
  intros Hj.
  replace (Z.to_nat j) with (S (Z.to_nat (j - 1))) by lia.
  reflexivity.
Qed.

Lemma findDaf_result (table : list Z) :
  forall masechta total d,
    findDaf table masechta total = Some d ->
    masechta <= masechtaNumber d < masechta + Z.of_nat (length table)
    /\ total = pagesBefore table (masechtaNumber d - masechta) + daf d - 1
    /\ daf d <= nth (Z.to_nat (masechtaNumber d - masechta)) table 0 + 1
    /\ (masechta < masechtaNumber d -> 2 <= daf d).
Proof.
  induction table as [|blatt rest IH]; intros masechta total d Hfind.
  - discriminate.
  - cbn [findDaf] in Hfind. destruct (Z.leb_spec total blatt) as [Hle | Hgt].
    + injection Hfind as <-. cbn [masechtaNumber daf length].
      rewrite Z.sub_diag. unfold pagesBefore. simpl. lia.
    + apply IH in Hfind. destruct Hfind as (Hm & Htotal & Hpage & Hsecond).
      cbn [length].
      replace (masechtaNumber d - (masechta + 1))
        with (masechtaNumber d - masechta - 1) in * by lia.
      rewrite pagesBefore_cons, nth_cons_pos by lia.
      repeat split; try lia.
      intros _.
      destruct (Z.eq_dec (masechtaNumber d) (masechta + 1)) as [Heq | Hne].
      * replace (masechtaNumber d - masechta - 1) with 0 in Htotal by lia.
        unfold pagesBefore in Htotal. simpl in Htotal. lia.
      * apply Hsecond. lia.
Qed.

Lemma sumZ_firstn_nonneg (table : list Z) :
  Forall (fun blatt => 0 <= blatt) table ->
  forall j, 0 <= sumZ (firstn j table).
Proof.
  unfold sumZ.
  induction 1 as [|blatt rest Hb _ IH]; intros [|j];
    cbn [firstn fold_right]; try lia.
  specialize (IH j). lia.
Qed.

Lemma findDaf_complete (table : list Z) :
  Forall (fun blatt => 0 <= blatt) table ->
  forall (j : nat) masechta page,
    (j < length table)%nat ->
    page <= nth j table 0 + 1 ->
    ((0 < j)%nat -> 2 <= page) ->
    findDaf table masechta (sumZ (firstn j table) + page - 1)
    = Some (mkDaf (masechta + Z.of_nat j) page).
Proof.
  induction 1 as [|blatt rest Hb Hrest IH]; intros j masechta page Hj Hpage Hsecond.
  - simpl in Hj. lia.
  - destruct j as [|j].
    + cbn [firstn sumZ fold_right nth findDaf] in *.
      destruct (Z.leb_spec (0 + page - 1) blatt); [|lia].
      do 2 f_equal; lia.
    + cbn [firstn sumZ fold_right nth findDaf length] in *.
      fold (sumZ (firstn j rest)).
      pose proof (sumZ_firstn_nonneg rest Hrest j) as Hnonneg.
      specialize (Hsecond ltac:(lia)).
      destruct (Z.leb_spec (blatt + sumZ (firstn j rest) + page - 1) blatt); [lia|].
      replace (blatt + sumZ (firstn j rest) + page - 1 - blatt)
        with (sumZ (firstn j rest) + page - 1) by lia.
      rewrite IH; [do 2 f_equal; lia | lia | exact Hpage |].
      intros _. exact Hsecond.
Qed.

Lemma findDaf_none (table : list Z) :
  Forall (fun blatt => 0 <= blatt) table ->
  forall masechta total,
    sumZ table < total -> findDaf table masechta total = None.
Proof.
  induction 1 as [|blatt rest Hb Hrest IH]; intros masechta total Hgt.
  - reflexivity.
  - cbn [findDaf sumZ fold_right] in *. fold (sumZ rest) in Hgt.
    pose proof (sumZ_firstn_nonneg rest Hrest (length rest)) as Hnonneg.
    rewrite firstn_all in Hnonneg.
    destruct (Z.leb_spec total blatt); [lia|].
    apply IH. lia.
Qed.

Lemma BLATT_PER_MASECHTA_nonneg :
  Forall (fun blatt => 0 <= blatt) BLATT_PER_MASECHTA.
Proof. unfold BLATT_PER_MASECHTA. repeat constructor; discriminate. Qed.

(** X2: which page the walk gives.  For every offset, the walk over
    [BLATT_PER_MASECHTA] returns volume m and page p exactly when m is one of
    the 39 volumes, the offset is the pages of the volumes before m plus
    p - 1, p is at most one more than the page count of m, and p is at least
    2 unless m is the first volume. *)
Theorem findDaf_page_of_offset (total masechta page : Z) :
  findDaf BLATT_PER_MASECHTA 0 total = Some (mkDaf masechta page)
  <-> 0 <= masechta < 39
      /\ total = pagesBefore BLATT_PER_MASECHTA masechta + page - 1
      /\ page <= nth (Z.to_nat masechta) BLATT_PER_MASECHTA 0 + 1
      /\ (1 <= masechta -> 2 <= page).
Proof.
  split.
  - intros Hfind. apply findDaf_result in Hfind.
    cbn [masechtaNumber daf] in Hfind. rewrite Z.sub_0_r in Hfind.
    change (Z.of_nat (length BLATT_PER_MASECHTA)) with 39 in Hfind.
    destruct Hfind as (Hm & Htotal & Hpage & Hsecond).
    split; [lia|]. split; [exact Htotal|]. split; [exact Hpage|].
    intros Hone. apply Hsecond. lia.
  - intros (Hm & -> & Hpage & Hsecond).
    pose proof (findDaf_complete BLATT_PER_MASECHTA BLATT_PER_MASECHTA_nonneg
                  (Z.to_nat masechta) 0 page) as Hfind.
    rewrite Z2Nat.id, Z.add_0_l in Hfind by lia.
    apply Hfind.
    + change (length BLATT_PER_MASECHTA) with 39%nat. lia.
    + exact Hpage.
    + intros. apply Hsecond. lia.
Qed.

(** X3: the walk falls off the end of the table, leaving the result
    undefined, exactly for the offsets above 1554. *)
Theorem findDaf_undefined_above_cycle_length (total : Z) :
  findDaf BLATT_PER_MASECHTA 0 total = None <-> WHOLE_SHAS_DAFS < total.
Proof.
  split.
  - intros Hnone.
    destruct (Z_lt_le_dec WHOLE_SHAS_DAFS total) as [Hgt | Hle]; [exact Hgt|].
    destruct (findDaf_finds BLATT_PER_MASECHTA ltac:(discriminate) 0 total)
      as [d Hd].
    + change (sumZ BLATT_PER_MASECHTA) with WHOLE_SHAS_DAFS. exact Hle.
    + congruence.
  - intros Hgt. apply (findDaf_none BLATT_PER_MASECHTA BLATT_PER_MASECHTA_nonneg).
    change (sumZ BLATT_PER_MASECHTA) with WHOLE_SHAS_DAFS. exact Hgt.
Qed.

(** ** Further properties: the special-day counter *)

Section CounterBounds.

Context {HC : HebrewCalendar}.

Lemma specialDaysLoop_le (start end_ : PlainDate) (n : nat) :
  forall i yomKippur tishaBeav specialDays,
    specialDaysLoop start end_ n i yomKippur tishaBeav specialDays
    <= specialDays + 2 * Z.of_nat n.
Proof.
  induction n as [|n IH]; intros i yk tb acc.
  - simpl. lia.
  - cbn [specialDaysLoop].
    match goal with |- specialDaysLoop _ _ _ _ _ _ ?acc' <= _ =>
      specialize (IH (i + 1) (setJewishYear yk i) (setJewishYear tb i) acc')
    end.
    destruct (rangeDates start (getDate (setJewishYear yk i)) end_ true),
             (rangeDates start (getDate (setJewishYear tb i)) end_ true); lia.
Qed.

Lemma rangeDates_empty (start middle end_ : PlainDate) :
  end_ < start -> rangeDates start middle end_ true = false.
Proof.
  intros Hlt. rewrite rangeDates_inclusive. unfold inClosedRange.
  destruct (Z.leb_spec start middle), (Z.leb_spec middle end_);
    try reflexivity; lia.
Qed.

Lemma specialDaysLoop_empty (start end_ : PlainDate) (n : nat) :
  end_ < start ->
  forall i yomKippur tishaBeav specialDays,
    specialDaysLoop start end_ n i yomKippur tishaBeav specialDays
    = specialDays.
Proof.
  intros Hlt. induction n as [|n IH]; intros i yk tb acc.
  - reflexivity.
  - cbn [specialDaysLoop]. rewrite !rangeDates_empty by exact Hlt. apply IH.
Qed.

Lemma sumZ_map_nonneg (f : Z -> Z) (l : list Z) :
  (forall y, 0 <= f y) -> 0 <= sumZ (map f l).
Proof.
  intros Hf. unfold sumZ.
  induction l as [|x l IH]; cbn [map fold_right]; [lia|].
  specialize (Hf x). lia.
Qed.

Lemma sumZ_map_le (f g : Z -> Z) (l : list Z) :
  (forall y, f y <= g y) -> sumZ (map f l) <= sumZ (map g l).
Proof.
  intros Hfg. unfold sumZ.
  induction l as [|x l IH]; cbn [map fold_right]; [lia|].
  specialize (Hfg x). lia.
Qed.

Lemma holyDaysInYear_mono (start end1 end2 : PlainDate) (year : Z) :
  end1 <= end2 ->
  holyDaysInYear start end1 year <= holyDaysInYear start end2 year.
Proof.
  intros Hle. unfold holyDaysInYear, inClosedRange.
  repeat match goal with
         | |- context [?a <=? ?b] => destruct (Z.leb_spec a b)
         end; simpl; lia.
Qed.

Lemma getNumOfSpecialDays_mono (start end1 end2 : PlainDate) :
  YearUpdateLaw HC ->
  end1 <= end2 ->
  getJewishYear (fromDate end1) <= getJewishYear (fromDate end2) ->
  getNumOfSpecialDays start end1 <= getNumOfSpecialDays start end2.
Proof.
  intros Hlaw Hle Hyears.
  rewrite !(getNumOfSpecialDays_sum Hlaw).
  set (ys := getJewishYear (fromDate start)).
  set (n1 := Z.to_nat (getJewishYear (fromDate end1) - ys + 1)).
  replace (Z.to_nat (getJewishYear (fromDate end2) - ys + 1))
    with (n1 + (Z.to_nat (getJewishYear (fromDate end2) - ys + 1) - n1))%nat
    by (subst n1; lia).
  rewrite yearsFrom_app, map_app, sumZ_app.
  pose proof (sumZ_map_le (holyDaysInYear start end1)
                (holyDaysInYear start end2) (yearsFrom ys n1)
                (fun y => holyDaysInYear_mono start end1 end2 y Hle)).
  pose proof (sumZ_map_nonneg (holyDaysInYear start end2)
                (yearsFrom (ys + Z.of_nat n1)
                   (Z.to_nat (getJewishYear (fromDate end2) - ys + 1) - n1))
                (holyDaysInYear_nonneg start end2)).
  lia.
Qed.

End CounterBounds.

(** X4: over an empty range, that is when [end_] is before [start] or the
    Hebrew year of [end_] is before that of [start], the counter returns 0. *)
Theorem special_days_empty_range
        (HC : HebrewCalendar) (start end_ : PlainDate) :
  end_ < start
  \/ getJewishYear (fromDate end_) < getJewishYear (fromDate start) ->
  getNumOfSpecialDays start end_ = 0.
Proof.
  intros [Hdates | Hyears]; unfold getNumOfSpecialDays.
  - now apply specialDaysLoop_empty.
  - replace (Z.to_nat _) with 0%nat by lia. reflexivity.
Qed.

Lemma special_days_empty_range_witness :
  Temporal.from 1980 7 1 < Temporal.from 1980 8 1
  /\ getNumOfSpecialDays (Temporal.from 1980 7 1) (Temporal.from 1980 8 1) = 1
  /\ getNumOfSpecialDays (Temporal.from 1980 8 1) (Temporal.from 1980 7 1) = 0.
Proof.
  split; [vm_compute; reflexivity|].
  split; [vm_compute; reflexivity|].
  apply (special_days_empty_range KosherJewishCalendar).
  left; vm_compute; reflexivity.
Defined.

(** X5: the counter adds at most 2 for each Hebrew year it goes through, from
    the Hebrew year of [start] to that of [end_]. *)
Theorem special_days_at_most_two_per_year
        (HC : HebrewCalendar) (start end_ : PlainDate) :
  0 <= getNumOfSpecialDays start end_
  <= 2 * Z.max 0 (getJewishYear (fromDate end_)
                  - getJewishYear (fromDate start) + 1).
Proof.
  split; [apply getNumOfSpecialDays_nonneg|].
  unfold getNumOfSpecialDays.
  match goal with |- specialDaysLoop _ _ ?n ?i ?yk ?tb 0 <= _ =>
    pose proof (specialDaysLoop_le start end_ n i yk tb 0)
  end.
  lia.
Qed.

(** X6: with the same [start], a later [end_] never gives a smaller count
    (the calendar updating the holy-day objects by year, and the Hebrew year
    of the later end not before that of the earlier). *)
Theorem special_days_grow_with_end
        (HC : HebrewCalendar) (start end1 end2 : PlainDate) :
  YearUpdateLaw HC ->
  end1 <= end2 ->
  getJewishYear (fromDate end1) <= getJewishYear (fromDate end2) ->
  getNumOfSpecialDays start end1 <= getNumOfSpecialDays start end2.
Proof. apply getNumOfSpecialDays_mono. Qed.

Lemma special_days_grow_with_end_witness :
  getNumOfSpecialDays (Temporal.from 1980 2 2) (Temporal.from 1980 8 1) = 1
  /\ getNumOfSpecialDays (Temporal.from 1980 2 2) (Temporal.from 1981 8 9) = 3
  /\ getNumOfSpecialDays (Temporal.from 1980 2 2) (Temporal.from 1980 8 1)
     <= getNumOfSpecialDays (Temporal.from 1980 2 2) (Temporal.from 1981 8 9).
Proof.
  split; [vm_compute; reflexivity|].
  split; [vm_compute; reflexivity|].
  apply (special_days_grow_with_end KosherJewishCalendar).
  - exact KosherJewishCalendar_year_update.
  - vm_compute; discriminate.
  - vm_compute; discriminate.
Defined.

(** ** Further properties: the cycle search *)

Section SearchFacts.

Context {HC : HebrewCalendar}.

Lemma adjustedOffset_at_most_whole (prevCycle requested : PlainDate) :
  YearUpdateLaw HC ->
  prevCycle <= requested <= nextBoundary prevCycle ->
  (prevCycle + WHOLE_SHAS_DAFS < requested ->
   getJewishYear (fromDate (prevCycle + WHOLE_SHAS_DAFS))
   <= getJewishYear (fromDate requested)) ->
  adjustedOffset prevCycle requested <= WHOLE_SHAS_DAFS.
Proof.
  intros Hlaw [Hprev Hnext] Hyears.
  unfold adjustedOffset, Temporal.sinceDays.
  pose proof (getNumOfSpecialDays_nonneg prevCycle requested).
  destruct (Z_lt_le_dec (prevCycle + WHOLE_SHAS_DAFS) requested) as [Hlate | Hearly].
  - pose proof (getNumOfSpecialDays_mono prevCycle
                  (prevCycle + WHOLE_SHAS_DAFS) requested Hlaw
                  ltac:(lia) (Hyears Hlate)).
    unfold nextBoundary in Hnext. lia.
  - lia.
Qed.

End SearchFacts.

(** X7: the cycle search ends for every requested date, within
    (requested - start) / 1554 + 1 passes of the loop, with its two dates or
    with the RangeError of [add]; further fuel does not change how it
    ends. *)
Theorem cycle_search_terminates (HC : HebrewCalendar) (requested : PlainDate) :
  exists r,
    r <> SearchOutOfFuel
    /\ forall fuel,
        (cycleFuel requested <= fuel)%nat ->
        cycleSearch fuel DAF_YOMI_START_DAY DAF_YOMI_START_DAY requested = r.
Proof.
  pose proof (cycleSearch_enough_fuel (cycleFuel requested)
                DAF_YOMI_START_DAY DAF_YOMI_START_DAY requested
                (cycleFuel_enough requested)) as Hends.
  exists (cycleSearch (cycleFuel requested)
            DAF_YOMI_START_DAY DAF_YOMI_START_DAY requested).
  split; [exact Hends|].
  intros fuel Hfuel. now apply cycleSearch_more_fuel.
Qed.

(** X8: how the loop ends for a requested date after the start of the first
    cycle.  The date lies after one cycle boundary and not after the next;
    when that next boundary is within the range of [Temporal.PlainDate] the
    loop ends with [prevCycle] and [nextCycle] these two boundaries, and
    when it is not, [nextCycle.add] throws the RangeError and so does the
    call (on a date that is no holy day). *)
Theorem cycle_search_brackets_request
        (HC : HebrewCalendar) (requested : PlainDate) :
  DAF_YOMI_START_DAY < requested ->
  exists k,
    cycleBoundary k < requested <= cycleBoundary (S k)
    /\ (cycleBoundary (S k) <= Temporal.MAX_DAY ->
        cycleSearch (cycleFuel requested)
          DAF_YOMI_START_DAY DAF_YOMI_START_DAY requested
        = Found (cycleBoundary k) (cycleBoundary (S k)))
    /\ (Temporal.MAX_DAY < cycleBoundary (S k) ->
        cycleSearch (cycleFuel requested)
          DAF_YOMI_START_DAY DAF_YOMI_START_DAY requested
        = SearchRangeError
        /\ forall jewishCalendar,
            getDate jewishCalendar = requested ->
            getYomTovIndex jewishCalendar <> YOM_KIPPUR ->
            getYomTovIndex jewishCalendar <> TISHA_BEAV ->
            getDafYomiYerushalmi jewishCalendar = ThrowRangeError).
Proof.
  intros Hafter.
  destruct (bracket_of_request requested Hafter) as (k & Hbr).
  pose proof (cycleSearch_from_start k requested Hbr) as Hrun.
  exists k. split; [exact Hbr|]. split.
  - intros Hin. apply Z.leb_le in Hin. now rewrite Hin in Hrun.
  - intros Hout. apply Z.leb_gt in Hout. rewrite Hout in Hrun.
    split; [exact Hrun|].
    intros jewishCalendar Hdate Hyk Htb. unfold getDafYomiYerushalmi.
    rewrite (not_excluded_guard _ Hyk Htb), compare_is_lt, Hdate.
    assert (Hge : (requested <? DAF_YOMI_START_DAY) = false)
      by (apply Z.ltb_ge; lia).
    now rewrite Hge, Hrun.
Qed.

Lemma cycle_search_brackets_request_witness :
  DAF_YOMI_START_DAY < Temporal.from 1990 1 1
  /\ cycleBoundary 2 = Temporal.from 1988 8 23
  /\ exists k,
      cycleBoundary k < Temporal.from 1990 1 1 <= cycleBoundary (S k)
      /\ (cycleBoundary (S k) <= Temporal.MAX_DAY ->
          cycleSearch (cycleFuel (Temporal.from 1990 1 1))
            DAF_YOMI_START_DAY DAF_YOMI_START_DAY (Temporal.from 1990 1 1)
          = Found (cycleBoundary k) (cycleBoundary (S k)))
      /\ (Temporal.MAX_DAY < cycleBoundary (S k) ->
          cycleSearch (cycleFuel (Temporal.from 1990 1 1))
            DAF_YOMI_START_DAY DAF_YOMI_START_DAY (Temporal.from 1990 1 1)
          = SearchRangeError
          /\ forall jewishCalendar,
              getDate jewishCalendar = Temporal.from 1990 1 1 ->
              getYomTovIndex jewishCalendar <> YOM_KIPPUR ->
              getYomTovIndex jewishCalendar <> TISHA_BEAV ->
              getDafYomiYerushalmi jewishCalendar = ThrowRangeError).
Proof.
  split; [vm_compute; reflexivity|].
  split; [vm_compute; reflexivity|].
  apply (cycle_search_brackets_request KosherJewishCalendar).
  vm_compute; reflexivity.
Defined.

(** X9: cycle boundaries move on by at least 1554 days each, so they are
    strictly increasing and never before the start of the first cycle; and
    a pass of the loop body that does not throw moves [nextCycle] from one
    boundary to the next. *)
Theorem cycle_boundaries_spread (HC : HebrewCalendar) (j n : nat) :
  cycleBoundary j + WHOLE_SHAS_DAFS * Z.of_nat n <= cycleBoundary (j + n)
  /\ DAF_YOMI_START_DAY <= cycleBoundary j
  /\ cycleBoundary j < cycleBoundary (S j)
  /\ (forall nextCycle,
        advanceCycle (cycleBoundary j) = Some nextCycle ->
        nextCycle = cycleBoundary (S j)).
Proof.
  split; [apply cycleBoundary_spread|]. split; [|split].
  - pose proof (cycleBoundary_spread 0 j) as H0.
    cbn [cycleBoundary Nat.add] in H0. unfold WHOLE_SHAS_DAFS in H0. lia.
  - apply cycleBoundary_lt. lia.
  - intros nextCycle Hstep. now apply advanceCycle_value in Hstep.
Qed.

(** ** Further properties: the outcome of a call *)

Section OutcomeFacts.

Context {HC : HebrewCalendar}.

Lemma getDafYomiYerushalmi_not_null (jewishCalendar : JewishCalendar) :
  getYomTovIndex jewishCalendar <> YOM_KIPPUR ->
  getYomTovIndex jewishCalendar <> TISHA_BEAV ->
  getDafYomiYerushalmi jewishCalendar <> ReturnNull.
Proof.
  intros Hyk Htb. unfold getDafYomiYerushalmi.
  rewrite (not_excluded_guard _ Hyk Htb).
  destruct (_ =? -1); [discriminate|].
  destruct (cycleSearch _ _ _ _) as [prev next| |]; try discriminate.
  destruct (findDaf _ _ _); discriminate.
Qed.

Lemma getDafYomiYerushalmi_in_range (jewishCalendar : JewishCalendar) :
  getYomTovIndex jewishCalendar <> YOM_KIPPUR ->
  getYomTovIndex jewishCalendar <> TISHA_BEAV ->
  DAF_YOMI_START_DAY <= getDate jewishCalendar ->
  getDafYomiYerushalmi jewishCalendar = ThrowRangeError
  \/ exists prevCycle,
      cycleStartOf (getDate jewishCalendar) = Some prevCycle
      /\ getDafYomiYerushalmi jewishCalendar
         = match findDaf BLATT_PER_MASECHTA 0
                   (adjustedOffset prevCycle (getDate jewishCalendar)) with
           | Some dafYomi => ReturnDaf dafYomi
           | None => ReturnUndefined
           end.
Proof.
  intros Hyk Htb Hstart.
  pose proof (getDafYomiYerushalmi_terminates jewishCalendar) as Hends.
  destruct (cycleStartOf (getDate jewishCalendar)) as [prev|] eqn:Hprev.
  - right. exists prev. split; [reflexivity|].
    now apply getDafYomiYerushalmi_by_offset.
  - left. unfold getDafYomiYerushalmi in Hends |- *.
    rewrite (not_excluded_guard _ Hyk Htb), compare_is_lt in Hends |- *.
    apply Z.ltb_ge in Hstart. rewrite Hstart in Hends |- *.
    unfold cycleStartOf in Hprev.
    destruct (cycleSearch _ _ _ _) as [p n| |];
      [discriminate | reflexivity | contradiction].
Qed.

Lemma before_start_guard (jewishCalendar : JewishCalendar) :
  getDate jewishCalendar < DAF_YOMI_START_DAY ->
  getYomTovIndex jewishCalendar <> YOM_KIPPUR ->
  getYomTovIndex jewishCalendar <> TISHA_BEAV ->
  getDafYomiYerushalmi jewishCalendar = ThrowIllegalArgument.
Proof.
  intros Hlt Hyk Htb. unfold getDafYomiYerushalmi.
  rewrite (not_excluded_guard _ Hyk Htb), compare_is_lt.
  apply Z.ltb_lt in Hlt. now rewrite Hlt.
Qed.

Lemma holy_or_not (jewishCalendar : JewishCalendar) :
  (getYomTovIndex jewishCalendar = YOM_KIPPUR
   \/ getYomTovIndex jewishCalendar = TISHA_BEAV)
  \/ (getYomTovIndex jewishCalendar <> YOM_KIPPUR
      /\ getYomTovIndex jewishCalendar <> TISHA_BEAV).
Proof.
  destruct (Z.eq_dec (getYomTovIndex jewishCalendar) YOM_KIPPUR);
    destruct (Z.eq_dec (getYomTovIndex jewishCalendar) TISHA_BEAV); tauto.
Qed.

End OutcomeFacts.

(** X10: which guard decides.  The call returns [null] exactly on the dates
    the calendar reports as Yom Kippur or Tisha B'Av, and throws exactly on
    the other dates that are before the start of the first cycle. *)
Theorem outcome_by_guards
        (HC : HebrewCalendar) (jewishCalendar : JewishCalendar) :
  (getDafYomiYerushalmi jewishCalendar = ReturnNull
   <-> getYomTovIndex jewishCalendar = YOM_KIPPUR
       \/ getYomTovIndex jewishCalendar = TISHA_BEAV)
  /\ (getDafYomiYerushalmi jewishCalendar = ThrowIllegalArgument
      <-> getYomTovIndex jewishCalendar <> YOM_KIPPUR
          /\ getYomTovIndex jewishCalendar <> TISHA_BEAV
          /\ getDate jewishCalendar < DAF_YOMI_START_DAY).
Proof.
  split; split.
  - intros Hnull.
    destruct (holy_or_not jewishCalendar) as [Hholy | [Hyk Htb]]; [exact Hholy|].
    now destruct (getDafYomiYerushalmi_not_null jewishCalendar Hyk Htb).
  - apply excluded_day_returns_null.
  - intros Hthrow.
    destruct (holy_or_not jewishCalendar) as [Hholy | [Hyk Htb]].
    + rewrite (excluded_day_returns_null _ Hholy) in Hthrow. discriminate.
    + split; [exact Hyk|]. split; [exact Htb|].
      destruct (Z_lt_le_dec (getDate jewishCalendar) DAF_YOMI_START_DAY)
        as [Hlt | Hge]; [exact Hlt|].
      destruct (getDafYomiYerushalmi_in_range jewishCalendar Hyk Htb Hge)
        as [Hrange | (prev & _ & Hrun)].
      * rewrite Hrange in Hthrow. discriminate.
      * rewrite Hrun in Hthrow. destruct (findDaf _ _ _); discriminate.
  - intros (Hyk & Htb & Hlt).
    unfold getDafYomiYerushalmi.
    rewrite (not_excluded_guard _ Hyk Htb), compare_is_lt.
    apply Z.ltb_lt in Hlt. now rewrite Hlt.
Qed.

(** X11: what a returned page says.  When the call returns volume m, page p,
    the date is no holy day and not before the start, m is one of the 39
    volumes, p is at most one more than the page count of m and at least 2
    unless m is the first volume, and the adjusted offset of the date in its
    cycle is the pages of the volumes before m plus p - 1. *)
Theorem returned_daf_locates_offset
        (HC : HebrewCalendar) (jewishCalendar : JewishCalendar) (d : Daf) :
  getDafYomiYerushalmi jewishCalendar = ReturnDaf d ->
  getYomTovIndex jewishCalendar <> YOM_KIPPUR
  /\ getYomTovIndex jewishCalendar <> TISHA_BEAV
  /\ DAF_YOMI_START_DAY <= getDate jewishCalendar
  /\ 0 <= masechtaNumber d < 39
  /\ daf d <= nth (Z.to_nat (masechtaNumber d)) BLATT_PER_MASECHTA 0 + 1
  /\ (1 <= masechtaNumber d -> 2 <= daf d)
  /\ offsetOf (getDate jewishCalendar)
     = Some (pagesBefore BLATT_PER_MASECHTA (masechtaNumber d) + daf d - 1).
Proof.
  intros Hret.
  destruct (holy_or_not jewishCalendar) as [Hholy | [Hyk Htb]].
  { rewrite (excluded_day_returns_null _ Hholy) in Hret. discriminate. }
  destruct (Z_lt_le_dec (getDate jewishCalendar) DAF_YOMI_START_DAY)
    as [Hlt | Hge].
  { rewrite (before_start_guard jewishCalendar Hlt Hyk Htb) in Hret.
    discriminate. }
  destruct (getDafYomiYerushalmi_in_range jewishCalendar Hyk Htb Hge)
    as [Hrange | (prev & Hprev & Hrun)].
  { rewrite Hrange in Hret. discriminate. }
  rewrite Hrun in Hret.
  destruct (findDaf BLATT_PER_MASECHTA 0
              (adjustedOffset prev (getDate jewishCalendar))) as [d'|] eqn:Hfind;
    [|discriminate].
  injection Hret as ->.
  apply findDaf_result in Hfind. rewrite Z.sub_0_r in Hfind.
  change (Z.of_nat (length BLATT_PER_MASECHTA)) with 39 in Hfind.
  destruct Hfind as (Hm & Htotal & Hpage & Hsecond).
  split; [exact Hyk|]. split; [exact Htb|]. split; [exact Hge|].
  split; [lia|]. split; [exact Hpage|]. split.
  - intros Hone. apply Hsecond. lia.
  - unfold offsetOf. rewrite Hprev. cbn [option_map]. now rewrite Htotal.
Qed.

Lemma returned_daf_locates_offset_witness :
  getDafYomiYerushalmi (fromDate (Temporal.from 1980 4 11))
  = ReturnDaf (mkDaf 1 2)
  /\ getYomTovIndex (fromDate (Temporal.from 1980 4 11)) <> YOM_KIPPUR
  /\ getYomTovIndex (fromDate (Temporal.from 1980 4 11)) <> TISHA_BEAV
  /\ DAF_YOMI_START_DAY <= getDate (fromDate (Temporal.from 1980 4 11))
  /\ 0 <= masechtaNumber (mkDaf 1 2) < 39
  /\ daf (mkDaf 1 2)
     <= nth (Z.to_nat (masechtaNumber (mkDaf 1 2))) BLATT_PER_MASECHTA 0 + 1
  /\ (1 <= masechtaNumber (mkDaf 1 2) -> 2 <= daf (mkDaf 1 2))
  /\ offsetOf (getDate (fromDate (Temporal.from 1980 4 11)))
     = Some (pagesBefore BLATT_PER_MASECHTA (masechtaNumber (mkDaf 1 2))
             + daf (mkDaf 1 2) - 1).
Proof.
  split; [vm_compute; reflexivity|].
  apply (returned_daf_locates_offset KosherJewishCalendar
           (fromDate (Temporal.from 1980 4 11)) (mkDaf 1 2)).
  vm_compute; reflexivity.
Defined.

(** X12: when the loop ends with a cycle start for a date on or after the
    start of the first cycle (no RangeError), the adjusted offset is at most
    1554, so the result is a page and never undefined.  The calendar is taken
    to update the holy-day objects by year and, for a date more than 1554
    days into its cycle, to put the Hebrew year of day 1554 of the cycle not
    after that of the date. *)
Theorem result_defined_from_start_on
        (HC : HebrewCalendar) (jewishCalendar : JewishCalendar)
        (prevCycle : PlainDate) :
  YearUpdateLaw HC ->
  getYomTovIndex jewishCalendar <> YOM_KIPPUR ->
  getYomTovIndex jewishCalendar <> TISHA_BEAV ->
  DAF_YOMI_START_DAY <= getDate jewishCalendar ->
  cycleStartOf (getDate jewishCalendar) = Some prevCycle ->
  (prevCycle + WHOLE_SHAS_DAFS < getDate jewishCalendar ->
   getJewishYear (fromDate (prevCycle + WHOLE_SHAS_DAFS))
   <= getJewishYear (fromDate (getDate jewishCalendar))) ->
  adjustedOffset prevCycle (getDate jewishCalendar) <= WHOLE_SHAS_DAFS
  /\ exists d, getDafYomiYerushalmi jewishCalendar = ReturnDaf d.
Proof.
  intros Hlaw Hyk Htb Hge Hprev Hyears.
  assert (Hoffset : adjustedOffset prevCycle (getDate jewishCalendar)
                    <= WHOLE_SHAS_DAFS).
  { apply (adjustedOffset_at_most_whole _ _ Hlaw); [|exact Hyears].
    destruct (cycleStartOf_bounds _ _ Hge Hprev) as [[_ Hle] Hnext].
    split; assumption. }
  split; [exact Hoffset|].
  rewrite (getDafYomiYerushalmi_by_offset jewishCalendar prevCycle Hyk Htb Hge Hprev).
  destruct (findDaf_finds BLATT_PER_MASECHTA ltac:(discriminate) 0
              (adjustedOffset prevCycle (getDate jewishCalendar))) as [d ->].
  - change (sumZ BLATT_PER_MASECHTA) with WHOLE_SHAS_DAFS. exact Hoffset.
  - exists d. reflexivity.
Qed.

Lemma result_defined_from_start_on_witness :
  cycleStartOf (Temporal.from 1984 5 10) = Some DAF_YOMI_START_DAY
  /\ DAF_YOMI_START_DAY + WHOLE_SHAS_DAFS < Temporal.from 1984 5 10
  /\ adjustedOffset DAF_YOMI_START_DAY (Temporal.from 1984 5 10)
     <= WHOLE_SHAS_DAFS
  /\ exists d,
      getDafYomiYerushalmi (fromDate (Temporal.from 1984 5 10)) = ReturnDaf d.
Proof.
  split; [vm_compute; reflexivity|].
  split; [vm_compute; reflexivity|].
  apply (result_defined_from_start_on KosherJewishCalendar
           (fromDate (Temporal.from 1984 5 10)) DAF_YOMI_START_DAY).
  - exact KosherJewishCalendar_year_update.
  - vm_compute; discriminate.
  - vm_compute; discriminate.
  - vm_compute; discriminate.
  - vm_compute; reflexivity.
  - intros _. vm_compute; discriminate.
Defined.
